(** * Chicago crashes API: identifier generation, validation and CRUD routers

    A shallow embedding of the identifier generators
    ([util/id_generators.py]), the validators ([util/validators.py]), the
    request schemas ([api/models/*.py]) and the routers
    ([api/routers/*.py]) of the traffic-crash API, together with the
    properties the specification states about them.

    Conventions of the embedding:
    - a Python [int] is a [Z]; a Python [float] is an IEEE-754 binary64
      value, [spec_float] with [prec = 53] and [emax = 1024], and every
      float operation is the correctly rounded one of [SpecFloat];
    - a Python [str] is a [string] holding the UTF-8 encoding of its text,
      so [s.encode('utf-8')] is the byte sequence of the string itself;
    - [Optional[T]] is [option T]; a field of an update schema is
      [option (option T)]: [None] when the request leaves the field unset
      ([model_dump(exclude_unset=True)] drops it), [Some None] for an
      explicit null;
    - code that raises returns [Raise e] in the [result] monad below;
    - a table of the relational store is the list of its rows in insertion
      order, and a session is the record of the tables. *)

From Stdlib Require Import ZArith List String Ascii Bool Lia.
From Stdlib Require Import Floats.SpecFloat.
Import ListNotations.

Local Open Scope string_scope.
Local Open Scope Z_scope.

(* ===================================================================== *)
(** ** Python primitives: decimal rendering of integers and string helpers *)
(* ===================================================================== *)

Module Py.

Definition is_digit (c : ascii) : bool :=
  let n := N_of_ascii c in (48 <=? n)%N && (n <=? 57)%N.

(** The character of a decimal digit [0 <= d < 10]. *)
Definition digit_char (d : Z) : ascii := ascii_of_N (Z.to_N (48 + d)).

Definition digit_val (c : ascii) : Z := Z.of_N (N_of_ascii c) - 48.

(** Decimal digits of a non-negative integer, most significant first,
    with no leading zero ("0" for zero). [fuel] bounds the number of
    digits; [str_nat] supplies enough. *)
Fixpoint digits_fuel (fuel : nat) (n : Z) (acc : string) : string :=
  match fuel with
  | O => acc
  | S k =>
      let acc' := String (digit_char (n mod 10)) acc in
      if n <? 10 then acc' else digits_fuel k (n / 10) acc'
  end.

Definition str_nat (n : Z) : string :=
  digits_fuel (S (Z.to_nat (Z.log2 n))) n "".

(** [str(n)] for a Python int. *)
Definition str_int (n : Z) : string :=
  if n <? 0 then "-" ++ str_nat (- n) else str_nat n.

Fixpoint zeros (k : nat) : string :=
  match k with
  | O => ""
  | S k' => String "0" (zeros k')
  end.

(** Left padding with ['0'] up to [width] characters. *)
Definition zero_pad (width : nat) (s : string) : string :=
  zeros (width - String.length s) ++ s.

(** [f"{n:0{width}d}"]: the sign, when there is one, counts in the width. *)
Definition format_0d (width : nat) (n : Z) : string :=
  if n <? 0 then "-" ++ zero_pad (width - 1) (str_nat (- n))
  else zero_pad width (str_nat n).

(** Value of a string of decimal digits, as [CAST(... AS INTEGER)] reads
    it; leading zeros are allowed. *)
Fixpoint int_of_digits_acc (s : string) (acc : Z) : Z :=
  match s with
  | EmptyString => acc
  | String c s' => int_of_digits_acc s' (10 * acc + digit_val c)
  end.

Definition int_of_digits (s : string) : Z := int_of_digits_acc s 0.

Fixpoint string_forallb (p : ascii -> bool) (s : string) : bool :=
  match s with
  | EmptyString => true
  | String c s' => p c && string_forallb p s'
  end.

(** [c.lower()] on the ASCII letters. *)
Definition lower_char (c : ascii) : ascii :=
  let n := N_of_ascii c in
  if ((65 <=? n) && (n <=? 90))%N then ascii_of_N (n + 32) else c.

Fixpoint lower (s : string) : string :=
  match s with
  | EmptyString => EmptyString
  | String c s' => String (lower_char c) (lower s')
  end.

(** The ASCII characters [str.strip()] removes: space, tab, newline,
    vertical tab, form feed, carriage return and the separators
    0x1c-0x1f. *)
Definition is_space (c : ascii) : bool :=
  let n := N_of_ascii c in
  ((n =? 32) || ((9 <=? n) && (n <=? 13)) || ((28 <=? n) && (n <=? 31)))%N.

Fixpoint lstrip (s : string) : string :=
  match s with
  | EmptyString => EmptyString
  | String c s' => if is_space c then lstrip s' else s
  end.

Fixpoint rstrip (s : string) : string :=
  match s with
  | EmptyString => EmptyString
  | String c s' =>
      match rstrip s' with
      | EmptyString => if is_space c then EmptyString else String c EmptyString
      | r => String c r
      end
  end.

Definition strip (s : string) : string := rstrip (lstrip s).

(** [len(s)]: the number of code points, that is the bytes of the UTF-8
    encoding that are not continuation bytes (10xxxxxx). *)
Fixpoint len (s : string) : Z :=
  match s with
  | EmptyString => 0
  | String c s' =>
      let n := N_of_ascii c in
      (if ((128 <=? n) && (n <? 192))%N then 0 else 1) + len s'
  end.

(** [s.encode('utf-8')], as the list of byte values. *)
Fixpoint encode_utf8 (s : string) : list Z :=
  match s with
  | EmptyString => []
  | String c s' => Z.of_N (N_of_ascii c) :: encode_utf8 s'
  end.

End Py.

(* ===================================================================== *)
(** ** [hashlib.sha512]: SHA-512 as FIPS 180-4 defines it *)
(* ===================================================================== *)

Module SHA512.

Definition modulus : Z := 18446744073709551616.   (* 2^64 *)

Definition add64 (x y : Z) : Z := (x + y) mod modulus.

Definition rotr (n x : Z) : Z :=
  Z.lor (Z.shiftr x n) (Z.shiftl x (64 - n) mod modulus).

Definition shr (n x : Z) : Z := Z.shiftr x n.

Definition lnot64 (x : Z) : Z := Z.lxor x (modulus - 1).

Definition Ch (x y z : Z) : Z := Z.lxor (Z.land x y) (Z.land (lnot64 x) z).

Definition Maj (x y z : Z) : Z :=
  Z.lxor (Z.lxor (Z.land x y) (Z.land x z)) (Z.land y z).

Definition Sigma0 (x : Z) : Z := Z.lxor (Z.lxor (rotr 28 x) (rotr 34 x)) (rotr 39 x).
Definition Sigma1 (x : Z) : Z := Z.lxor (Z.lxor (rotr 14 x) (rotr 18 x)) (rotr 41 x).
Definition sigma0 (x : Z) : Z := Z.lxor (Z.lxor (rotr 1 x) (rotr 8 x)) (shr 7 x).
Definition sigma1 (x : Z) : Z := Z.lxor (Z.lxor (rotr 19 x) (rotr 61 x)) (shr 6 x).

Definition K : list Z :=
[ 0x428a2f98d728ae22; 0x7137449123ef65cd; 0xb5c0fbcfec4d3b2f; 0xe9b5dba58189dbbc;
  0x3956c25bf348b538; 0x59f111f1b605d019; 0x923f82a4af194f9b; 0xab1c5ed5da6d8118;
  0xd807aa98a3030242; 0x12835b0145706fbe; 0x243185be4ee4b28c; 0x550c7dc3d5ffb4e2;
  0x72be5d74f27b896f; 0x80deb1fe3b1696b1; 0x9bdc06a725c71235; 0xc19bf174cf692694;
  0xe49b69c19ef14ad2; 0xefbe4786384f25e3; 0x0fc19dc68b8cd5b5; 0x240ca1cc77ac9c65;
  0x2de92c6f592b0275; 0x4a7484aa6ea6e483; 0x5cb0a9dcbd41fbd4; 0x76f988da831153b5;
  0x983e5152ee66dfab; 0xa831c66d2db43210; 0xb00327c898fb213f; 0xbf597fc7beef0ee4;
  0xc6e00bf33da88fc2; 0xd5a79147930aa725; 0x06ca6351e003826f; 0x142929670a0e6e70;
  0x27b70a8546d22ffc; 0x2e1b21385c26c926; 0x4d2c6dfc5ac42aed; 0x53380d139d95b3df;
  0x650a73548baf63de; 0x766a0abb3c77b2a8; 0x81c2c92e47edaee6; 0x92722c851482353b;
  0xa2bfe8a14cf10364; 0xa81a664bbc423001; 0xc24b8b70d0f89791; 0xc76c51a30654be30;
  0xd192e819d6ef5218; 0xd69906245565a910; 0xf40e35855771202a; 0x106aa07032bbd1b8;
  0x19a4c116b8d2d0c8; 0x1e376c085141ab53; 0x2748774cdf8eeb99; 0x34b0bcb5e19b48a8;
  0x391c0cb3c5c95a63; 0x4ed8aa4ae3418acb; 0x5b9cca4f7763e373; 0x682e6ff3d6b2b8a3;
  0x748f82ee5defb2fc; 0x78a5636f43172f60; 0x84c87814a1f0ab72; 0x8cc702081a6439ec;
  0x90befffa23631e28; 0xa4506cebde82bde9; 0xbef9a3f7b2c67915; 0xc67178f2e372532b;
  0xca273eceea26619c; 0xd186b8c721c0c207; 0xeada7dd6cde0eb1e; 0xf57d4f7fee6ed178;
  0x06f067aa72176fba; 0x0a637dc5a2c898a6; 0x113f9804bef90dae; 0x1b710b35131c471b;
  0x28db77f523047d84; 0x32caab7b40c72493; 0x3c9ebe0a15c9bebc; 0x431d67c49c100d4c;
  0x4cc5d4becb3e42b6; 0x597f299cfc657e2a; 0x5fcb6fab3ad6faec; 0x6c44198c4a475817 ].

(** The eight working variables, also the intermediate hash value. *)
Record state : Type := State
  { sa : Z; sb : Z; sc : Z; sd : Z; se : Z; sf : Z; sg : Z; sh : Z }.

Definition H0 : state :=
  State 0x6a09e667f3bcc908 0xbb67ae8584caa73b 0x3c6ef372fe94f82b 0xa54ff53a5f1d36f1
        0x510e527fade682d1 0x9b05688c2b3e6c1f 0x1f83d9abfb41bd6b 0x5be0cd19137e2179.

(** Big-endian value of a list of bytes, and the [k] big-endian bytes of
    a value. *)
Definition be_value (bs : list Z) : Z := fold_left (fun acc b => acc * 256 + b) bs 0.

Fixpoint be_bytes (k : nat) (v : Z) : list Z :=
  match k with
  | O => []
  | S k' => (Z.shiftr v (8 * Z.of_nat k')) mod 256 :: be_bytes k' v
  end.

(** Padding (section 5.1.2): a 1 bit, zeros up to 896 mod 1024 bits, and
    the length in bits on 128 bits. *)
Definition pad (msg : list Z) : list Z :=
  let l := Z.of_nat (List.length msg) in
  (msg ++ [128] ++ repeat 0 (Z.to_nat ((111 - l) mod 128)) ++ be_bytes 16 (8 * l))%list.

(** The 16 words of each 1024-bit block. *)
Fixpoint words (k : nat) (bs : list Z) : list Z :=
  match k with
  | O => []
  | S k' => be_value (firstn 8 bs) :: words k' (skipn 8 bs)
  end.

Fixpoint blocks (k : nat) (bs : list Z) : list (list Z) :=
  match k with
  | O => []
  | S k' => words 16 (firstn 128 bs) :: blocks k' (skipn 128 bs)
  end.

(** Message schedule (section 6.4.2, step 1). [w] holds the words
    computed so far, the latest first. *)
Fixpoint schedule (n : nat) (w : list Z) : list Z :=
  match n with
  | O => w
  | S n' =>
      let wt := add64 (add64 (add64 (sigma1 (nth 1 w 0)) (nth 6 w 0))
                             (sigma0 (nth 14 w 0))) (nth 15 w 0) in
      schedule n' (wt :: w)
  end.

Definition round (s : state) (kw : Z * Z) : state :=
  let '(k, w) := kw in
  let t1 := add64 (add64 (add64 (add64 (sh s) (Sigma1 (se s))) (Ch (se s) (sf s) (sg s))) k) w in
  let t2 := add64 (Sigma0 (sa s)) (Maj (sa s) (sb s) (sc s)) in
  State (add64 t1 t2) (sa s) (sb s) (sc s) (add64 (sd s) t1) (se s) (sf s) (sg s).

Definition compress (h : state) (block : list Z) : state :=
  let w := rev (schedule 64 (rev block)) in
  let s := fold_left round (combine K w) h in
  State (add64 (sa h) (sa s)) (add64 (sb h) (sb s)) (add64 (sc h) (sc s))
        (add64 (sd h) (sd s)) (add64 (se h) (se s)) (add64 (sf h) (sf s))
        (add64 (sg h) (sg s)) (add64 (sh h) (sh s)).

Definition sha512 (msg : list Z) : state :=
  let p := pad msg in
  fold_left compress (blocks (List.length p / 128) p) H0.

(** [hexdigest()]: 16 lowercase hexadecimal digits per word. *)
Definition hex_char (d : Z) : ascii :=
  if d <? 10 then ascii_of_N (Z.to_N (48 + d)) else ascii_of_N (Z.to_N (87 + d)).

Fixpoint hex_word (k : nat) (w : Z) : string :=
  match k with
  | O => ""
  | S k' => String (hex_char (Z.land (Z.shiftr w (4 * Z.of_nat k')) 15)) (hex_word k' w)
  end.

Definition hexdigest (s : state) : string :=
  hex_word 16 (sa s) ++ hex_word 16 (sb s) ++ hex_word 16 (sc s) ++ hex_word 16 (sd s) ++
  hex_word 16 (se s) ++ hex_word 16 (sf s) ++ hex_word 16 (sg s) ++ hex_word 16 (sh s).

Definition is_lower_hex (c : ascii) : bool :=
  let n := N_of_ascii c in
  (((48 <=? n) && (n <=? 57)) || ((97 <=? n) && (n <=? 102)))%N.

End SHA512.

(* ===================================================================== *)
(** ** Python exceptions and the monad of code that raises *)
(* ===================================================================== *)

(** A dynamically typed Python value, where the source takes [Any]. *)
Inductive Any : Type :=
  | PyNone
  | PyBool (b : bool)
  | PyInt (n : Z)
  | PyFloat (x : spec_float)
  | PyStr (s : string)
  | PyObject.

(** The [type] of an entry of a schema validation error, as the framework
    names it. *)
Inductive ErrorType : Type :=
  | greater_than_equal
  | less_than_equal
  | greater_than
  | string_too_long
  | string_too_short
  | string_pattern_mismatch
  | bool_parsing
  | value_error.

(** The text of an error, kept as the template the source renders and the
    values it interpolates. *)
Inductive Detail : Type :=
  (* util/validators.py *)
  | LatitudInvalida (latitude : option spec_float)
  | LongitudInvalida (longitude : option spec_float)
  | NoPuedeSerNegativo (field_name : string) (value : Z)
  | NoPuedeSerFutura (field_name : string)
  | EdadNegativa (age : Z)
  | EdadFueraDeRango (age : Z)
  | ExcedeLongitudMaxima (field_name : string) (max_length : Z) (length : Z)
  | NoExisteEnLaTabla (column_name : string) (value : Any) (table_name : string)
  | ValorNumericoInvalidoParaBooleano
  | ValorDeStringInvalidoParaBooleano (value : string)
  | TipoDeDatoInvalidoParaBooleano
  (* util/id_generators.py *)
  | LimiteMaximoPersonId
  (* int(float('nan')) *)
  | CannotConvertNaN
  (* api/routers *)
  | NoEncontrado (entity : string) (key : string)
  | YaExiste (entity : string) (key : string)
  | BacNegativo
  | ErrorDeIntegridad
  | ErrorInterno (cause : string)
  (* main.py, validation_exception_handler *)
  | ErrorDeValidacion (errors : list (string * ErrorType)).

Inductive exn : Type :=
  | HTTPException (status_code : Z) (detail : Detail)
  | RequestValidationError (errors : list (string * ErrorType))
  | ValueError (message : Detail)
  | TypeError
  | OverflowError
  | ZeroDivisionError
  | IntegrityError
  | ProgrammingError.

Inductive result (A : Type) : Type :=
  | Ok (a : A)
  | Raise (e : exn).

Arguments Ok {A} a.
Arguments Raise {A} e.

Definition bind {A B : Type} (m : result A) (k : A -> result B) : result B :=
  match m with
  | Ok a => k a
  | Raise e => Raise e
  end.

Declare Scope result_scope.
Delimit Scope result_scope with result.
Notation "x <- m ;; k" := (bind m (fun x => k))
  (at level 61, m at next level, right associativity) : result_scope.
Notation "m ;;; k" := (bind m (fun _ => k))
  (at level 61, right associativity) : result_scope.
Local Open Scope result_scope.

(** [if c: body] around a statement that may raise. *)
Definition when (c : bool) (body : result unit) : result unit :=
  if c then body else Ok tt.

(** [str(e)] for the exceptions a handler reports. *)
Definition exn_name (e : exn) : string :=
  match e with
  | HTTPException _ _ => "HTTPException"
  | RequestValidationError _ => "RequestValidationError"
  | ValueError _ => "ValueError"
  | TypeError => "TypeError"
  | OverflowError => "OverflowError"
  | ZeroDivisionError => "ZeroDivisionError"
  | IntegrityError => "IntegrityError"
  | ProgrammingError => "ProgrammingError"
  end.

(* ===================================================================== *)
(** ** Python floats: IEEE-754 binary64 *)
(* ===================================================================== *)

Module Float64.

Definition float : Type := spec_float.
Definition prec : Z := 53.
Definition emax : Z := 1024.

Definition mul : float -> float -> float := SFmul prec emax.
Definition leb : float -> float -> bool := SFleb.
Definition ltb : float -> float -> bool := SFltb.

(** [float(n)] for a Python int: the nearest binary64, [OverflowError]
    beyond the range. *)
Definition of_int (n : Z) : result float :=
  match binary_normalize prec emax n 0 false with
  | S754_infinity _ => Raise OverflowError
  | x => Ok x
  end.

(** A small integer constant, exactly representable. *)
Definition const (n : Z) : float := binary_normalize prec emax n 0 false.

(** [int(x)]: truncation toward zero; [OverflowError] on an infinity,
    [ValueError] on a NaN. *)
Definition to_int (x : float) : result Z :=
  match x with
  | S754_zero _ => Ok 0
  | S754_finite s m e =>
      let a := match e with
               | Zneg p => Z.shiftr (Zpos m) (Zpos p)
               | _ => Z.shiftl (Zpos m) e
               end in
      Ok (if s then - a else a)
  | S754_infinity _ => Raise OverflowError
  | S754_nan => Raise (ValueError CannotConvertNaN)
  end.

(** [a / b] on two Python ints: the correctly rounded quotient. *)
Definition int_truediv (a b : Z) : result float :=
  if b =? 0 then Raise ZeroDivisionError
  else if a =? 0 then Ok (S754_zero false)
  else
    let s := xorb (a <? 0) (b <? 0) in
    let '(mz, ez, lz) := SFdiv_core_binary prec emax (Z.abs a) 0 (Z.abs b) 0 in
    match binary_round_aux prec emax s mz ez lz with
    | S754_infinity _ => Raise OverflowError
    | x => Ok x
    end.

(** [x * n] for a float and a Python int. *)
Definition mul_int (x : float) (n : Z) : result float :=
  f <- of_int n ;; Ok (mul x f).

(** The integer nearest to [m * 2^e * 10^digits], ties to even. *)
Definition round_scaled (digits : nat) (m : positive) (e : Z) : Z :=
  let num := Zpos m * 10 ^ Z.of_nat digits in
  match e with
  | Zneg p =>
      let den := 2 ^ Zpos p in
      let q := num / den in
      let r := num mod den in
      match 2 * r ?= den with
      | Lt => q
      | Gt => q + 1
      | Eq => if Z.even q then q else q + 1
      end
  | _ => num * 2 ^ e
  end.

(** [f"{x:.6f}"]: fixed-point notation, correctly rounded, with exactly
    six digits after the point. *)
Definition format_6f (x : float) : string :=
  match x with
  | S754_nan => "nan"
  | S754_infinity s => if s then "-inf" else "inf"
  | S754_zero s => (if s then "-" else "") ++ "0.000000"
  | S754_finite s m e =>
      let n := round_scaled 6 m e in
      (if s then "-" else "") ++ Py.str_nat (n / 1000000) ++ "." ++
      Py.zero_pad 6 (Py.str_nat (n mod 1000000))
  end.

End Float64.

Abbreviation float := Float64.float.

(* ===================================================================== *)
(** ** [datetime.datetime] (naive) *)
(* ===================================================================== *)

Record datetime : Type := Datetime
  { year : Z; month : Z; day : Z; hour : Z; minute : Z; second : Z; microsecond : Z }.

Definition datetime_fields (d : datetime) : list Z :=
  [year d; month d; day d; hour d; minute d; second d; microsecond d].

Fixpoint lex_gtb (a b : list Z) : bool :=
  match a, b with
  | x :: a', y :: b' => (y <? x) || ((x =? y) && lex_gtb a' b')
  | _, _ => false
  end.

(** [a > b] on two naive datetimes. *)
Definition datetime_gtb (a b : datetime) : bool :=
  lex_gtb (datetime_fields a) (datetime_fields b).

(** [d.strftime("%Y-%m-%d %H:%M:%S")]: every field zero-padded, the year
    on four digits as the library documents it (below year 1000 the C
    library of the platform decides whether the year is padded). *)
Definition strftime (d : datetime) : string :=
  Py.zero_pad 4 (Py.str_nat (year d)) ++ "-" ++
  Py.zero_pad 2 (Py.str_nat (month d)) ++ "-" ++
  Py.zero_pad 2 (Py.str_nat (day d)) ++ " " ++
  Py.zero_pad 2 (Py.str_nat (hour d)) ++ ":" ++
  Py.zero_pad 2 (Py.str_nat (minute d)) ++ ":" ++
  Py.zero_pad 2 (Py.str_nat (second d)).

(* ===================================================================== *)
(** ** The relational store: entities ([db/entities]) and the session *)
(* ===================================================================== *)

(** db/entities/crashes.py *)
Module Crash.
Record t : Type := Build
  { crash_record_id : string;
    incident_date : option datetime;
    latitude : option float;
    longitude : option float;
    street_no : option Z;
    street_name : option string }.
End Crash.

(** db/entities/crash_circumstances.py *)
Module CrashCircumstances.
Record t : Type := Build
  { crash_record_id : string;
    traffic_control_device : option string;
    device_condition : option string;
    weather_condition : option string;
    lighting_condition : option string;
    lane_cnt : option Z;
    roadway_surface_cond : option string;
    road_defect : option string;
    num_units : option Z;
    posted_speed_limit : option Z;
    intersection_related_i : option bool;
    not_right_of_way_i : option bool }.
End CrashCircumstances.

(** db/entities/vehicle.py *)
Module Vehicle.
Record t : Type := Build
  { vehicle_id : Z;
    crash_unit_id : Z;
    crash_record_id : string;
    unit_no : option Z;
    unit_type : option string;
    num_passengers : option Z;
    vehicle_year : option Z;
    make : option string;
    model : option string;
    vehicle_type : option string }.
End Vehicle.

(** db/entities/vehicle_violations.py *)
Module VehicleViolations.
Record t : Type := Build
  { vehicle_id : Z;
    cmrc_veh_i : option bool;
    exceed_speed_limit_i : option bool;
    hazmat_present_i : option bool;
    vehicle_defect : option string }.
End VehicleViolations.

(** db/entities/people.py *)
Module People.
Record t : Type := Build
  { person_id : string;
    person_type : option string;
    crash_record_id : option string;
    vehicle_id : option Z;
    sex : option string;
    age : option Z;
    safety_equipment : option string;
    airbag_deployed : option string;
    injury_classification : option string }.
End People.

(** db/entities/driver_info.py *)
Module DriverInfo.
Record t : Type := Build
  { person_id : string;
    driver_action : option string;
    driver_vision : option string;
    physical_condition : option string;
    bac_result_value : option float;
    cell_phone_use : option bool;
    drivers_license_class : option string }.
End DriverInfo.

(** The tables a session reads and writes, each the list of its rows in
    insertion order. *)
Record Session : Type := BuildSession
  { crashes : list Crash.t;
    crash_circumstances : list CrashCircumstances.t;
    vehicle : list Vehicle.t;
    vehicle_violations : list VehicleViolations.t;
    people : list People.t;
    driver_info : list DriverInfo.t }.

Definition empty_session : Session := BuildSession [] [] [] [] [] [].

Definition set_crashes (l : list Crash.t) (db : Session) : Session :=
  BuildSession l (crash_circumstances db) (vehicle db) (vehicle_violations db)
               (people db) (driver_info db).

Definition set_crash_circumstances (l : list CrashCircumstances.t) (db : Session) : Session :=
  BuildSession (crashes db) l (vehicle db) (vehicle_violations db) (people db) (driver_info db).

Definition set_vehicle_violations (l : list VehicleViolations.t) (db : Session) : Session :=
  BuildSession (crashes db) (crash_circumstances db) (vehicle db) l (people db) (driver_info db).

Definition set_people (l : list People.t) (db : Session) : Session :=
  BuildSession (crashes db) (crash_circumstances db) (vehicle db) (vehicle_violations db)
               l (driver_info db).

Definition set_driver_info (l : list DriverInfo.t) (db : Session) : Session :=
  BuildSession (crashes db) (crash_circumstances db) (vehicle db) (vehicle_violations db)
               (people db) l.

(** [db.query(Entity).get(key)]: the row with that primary key. *)
Definition get_crash (db : Session) (key : string) : option Crash.t :=
  find (fun r => String.eqb (Crash.crash_record_id r) key) (crashes db).

Definition get_crash_circumstances (db : Session) (key : string) : option CrashCircumstances.t :=
  find (fun r => String.eqb (CrashCircumstances.crash_record_id r) key) (crash_circumstances db).

Definition get_vehicle (db : Session) (key : Z) : option Vehicle.t :=
  find (fun r => Vehicle.vehicle_id r =? key) (vehicle db).

Definition get_vehicle_violations (db : Session) (key : Z) : option VehicleViolations.t :=
  find (fun r => VehicleViolations.vehicle_id r =? key) (vehicle_violations db).

Definition get_people (db : Session) (key : string) : option People.t :=
  find (fun r => String.eqb (People.person_id r) key) (people db).

Definition get_driver_info (db : Session) (key : string) : option DriverInfo.t :=
  find (fun r => String.eqb (DriverInfo.person_id r) key) (driver_info db).

Definition is_some {A : Type} (o : option A) : bool :=
  match o with Some _ => true | None => false end.

(** A nullable foreign key holds when it is null or its target exists. *)
Definition fk_ok {A K : Type} (lookup : K -> option A) (fk : option K) : bool :=
  match fk with
  | None => true
  | Some k => is_some (lookup k)
  end.

(** [db.add(row); db.flush()]: the INSERT, which the store refuses with
    an [IntegrityError] when the primary key is taken or a foreign key has
    no target. *)
Definition add_crash (row : Crash.t) (db : Session) : result Session :=
  if is_some (get_crash db (Crash.crash_record_id row)) then Raise IntegrityError
  else Ok (set_crashes (crashes db ++ [row])%list db).

Definition add_crash_circumstances (row : CrashCircumstances.t) (db : Session) : result Session :=
  if is_some (get_crash_circumstances db (CrashCircumstances.crash_record_id row))
     || negb (is_some (get_crash db (CrashCircumstances.crash_record_id row)))
  then Raise IntegrityError
  else Ok (set_crash_circumstances (crash_circumstances db ++ [row])%list db).

Definition add_vehicle_violations (row : VehicleViolations.t) (db : Session) : result Session :=
  if is_some (get_vehicle_violations db (VehicleViolations.vehicle_id row))
     || negb (is_some (get_vehicle db (VehicleViolations.vehicle_id row)))
  then Raise IntegrityError
  else Ok (set_vehicle_violations (vehicle_violations db ++ [row])%list db).

Definition add_people (row : People.t) (db : Session) : result Session :=
  if is_some (get_people db (People.person_id row))
     || negb (fk_ok (get_crash db) (People.crash_record_id row))
     || negb (fk_ok (get_vehicle db) (People.vehicle_id row))
  then Raise IntegrityError
  else Ok (set_people (people db ++ [row])%list db).

Definition add_driver_info (row : DriverInfo.t) (db : Session) : result Session :=
  if is_some (get_driver_info db (DriverInfo.person_id row))
     || negb (is_some (get_people db (DriverInfo.person_id row)))
  then Raise IntegrityError
  else Ok (set_driver_info (driver_info db ++ [row])%list db).

(** The UPDATE a flush issues for a persistent row whose attributes were
    set: the row with that key is replaced. *)
Definition replace_crash (row : Crash.t) (db : Session) : Session :=
  set_crashes
    (map (fun r => if String.eqb (Crash.crash_record_id r) (Crash.crash_record_id row)
                   then row else r) (crashes db)) db.

Definition replace_vehicle_violations (row : VehicleViolations.t) (db : Session) : Session :=
  set_vehicle_violations
    (map (fun r => if VehicleViolations.vehicle_id r =? VehicleViolations.vehicle_id row
                   then row else r) (vehicle_violations db)) db.

(** The values of a column, for the raw SQL of the validators; [None]
    when the store has no such table or column. *)
Definition select_column (db : Session) (table_name column_name : string)
  : option (list Any) :=
  if String.eqb table_name "crashes" && String.eqb column_name "crash_record_id"
  then Some (map (fun r => PyStr (Crash.crash_record_id r)) (crashes db))
  else if String.eqb table_name "vehicle" && String.eqb column_name "vehicle_id"
  then Some (map (fun r => PyInt (Vehicle.vehicle_id r)) (vehicle db))
  else if String.eqb table_name "people" && String.eqb column_name "person_id"
  then Some (map (fun r => PyStr (People.person_id r)) (people db))
  else None.

(** [column = :value] in SQL, on the keys the store holds. *)
Definition sql_eqb (a b : Any) : bool :=
  match a, b with
  | PyInt x, PyInt y => x =? y
  | PyStr x, PyStr y => String.eqb x y
  | _, _ => false
  end.

(* ===================================================================== *)
(** ** util/id_generators.py *)
(* ===================================================================== *)

(** [generate_crash_record_id]: the SHA-512 of the components, in
    hexadecimal. *)
Definition generate_crash_record_id
  (incident_date : datetime) (latitude longitude : float)
  (street_no : Z) (street_name : string) : string :=
  let date_str := strftime incident_date in
  let lat_str := Float64.format_6f latitude in
  let lon_str := Float64.format_6f longitude in
  let components :=
    date_str ++ lat_str ++ lon_str ++ Py.str_int street_no ++ street_name in
  SHA512.hexdigest (SHA512.sha512 (Py.encode_utf8 components)).

(** [MAX(...)] of SQL: null on no row. *)
Definition sql_max (l : list Z) : option Z :=
  match l with
  | [] => None
  | x :: l' => Some (fold_left Z.max l' x)
  end.

Definition coalesce (o : option Z) (default : Z) : Z :=
  match o with
  | Some v => v
  | None => default
  end.



(** [person_id ~ '^Q[0-9]{7}$'] *)
Definition matches_person_id (person_id : string) : bool :=
  match person_id with
  | String c rest =>
      Ascii.eqb c "Q" && Nat.eqb (String.length rest) 7 &&
      Py.string_forallb Py.is_digit rest
  | EmptyString => false
  end.

(** [SUBSTRING(person_id FROM 2)] *)
Definition substring_from_2 (person_id : string) : string :=
  match person_id with
  | String _ rest => rest
  | EmptyString => EmptyString
  end.

(** [CAST(SUBSTRING(person_id FROM 2) AS INTEGER)] *)
Definition person_number (person_id : string) : Z :=
  Py.int_of_digits (substring_from_2 person_id).

(** The scalar of the query of [generate_person_id]:
    [SELECT COALESCE(MAX(CAST(SUBSTRING(person_id FROM 2) AS INTEGER)), 0) + 1
     FROM people WHERE person_id ~ '^Q[0-9]{7}$'] *)
Definition next_person_number (db : Session) : Z :=
  coalesce
    (sql_max (map (fun r => person_number (People.person_id r))
                  (filter (fun r => matches_person_id (People.person_id r)) (people db))))
    0 + 1.

Definition generate_person_id (db : Session) : result string :=
  let next_num := next_person_number db in
  if 9999999 <? next_num then Raise (ValueError LimiteMaximoPersonId)
  else Ok ("Q" ++ Py.format_0d 7 next_num).

(** [int(value * factor) / factor] *)
Definition truncate (value : float) (factor : Z) : result float :=
  scaled <- Float64.mul_int value factor ;;
  k <- Float64.to_int scaled ;;
  Float64.int_truediv k factor.

Definition truncate_coordinates (latitude longitude : float) (decimals : nat)
  : result (float * float) :=
  let factor := 10 ^ Z.of_nat decimals in
  lat_truncated <- truncate latitude factor ;;
  lon_truncated <- truncate longitude factor ;;
  Ok (lat_truncated, lon_truncated).

(* ===================================================================== *)
(** ** util/validators.py *)
(* ===================================================================== *)

(** [lo <= x <= hi] for a float between two int bounds. *)
Definition float_between (lo : Z) (x : float) (hi : Z) : bool :=
  Float64.leb (Float64.const lo) x && Float64.leb x (Float64.const hi).

(** A null where the source expects a float makes the comparison raise
    [TypeError]. *)
Definition validate_coordinates (latitude longitude : option float) : result unit :=
  match latitude with
  | None => Raise TypeError
  | Some lat =>
      if negb (float_between (-90) lat 90)
      then Raise (HTTPException 400 (LatitudInvalida latitude))
      else
        match longitude with
        | None => Raise TypeError
        | Some lon =>
            if negb (float_between (-180) lon 180)
            then Raise (HTTPException 400 (LongitudInvalida longitude))
            else Ok tt
        end
  end.

Definition validate_non_negative (value : option Z) (field_name : string) : result unit :=
  match value with
  | Some v =>
      if v <? 0 then Raise (HTTPException 400 (NoPuedeSerNegativo field_name v))
      else Ok tt
  | None => Ok tt
  end.

(** [now] is the reading of [datetime.now()]. *)
Definition validate_date_not_future
  (now : datetime) (date : option datetime) (field_name : string) : result unit :=
  match date with
  | Some d =>
      if datetime_gtb d now then Raise (HTTPException 400 (NoPuedeSerFutura field_name))
      else Ok tt
  | None => Ok tt
  end.

Definition validate_age (age : option Z) : result unit :=
  match age with
  | Some a =>
      if a <? 0 then Raise (HTTPException 400 (EdadNegativa a))
      else if 120 <? a then Raise (HTTPException 400 (EdadFueraDeRango a))
      else Ok tt
  | None => Ok tt
  end.

(** The truth value of an optional string: null and the empty string are
    false. *)
Definition truthy_str (value : option string) : bool :=
  match value with
  | Some (String _ _) => true
  | _ => false
  end.

Definition validate_string_length
  (value : option string) (max_length : Z) (field_name : string) : result unit :=
  match value with
  | Some s =>
      if truthy_str value && (max_length <? Py.len s)
      then Raise (HTTPException 400 (ExcedeLongitudMaxima field_name max_length (Py.len s)))
      else Ok tt
  | None => Ok tt
  end.

Definition validate_foreign_key_exists
  (db : Session) (table_name column_name : string) (value : Any) : result unit :=
  match value with
  | PyNone => Ok tt
  | _ =>
      match select_column db table_name column_name with
      | None => Raise ProgrammingError
      | Some rows =>
          if existsb (sql_eqb value) rows then Ok tt
          else Raise (HTTPException 404
                 (NoExisteEnLaTabla column_name value table_name))
      end
  end.

Definition normalize_boolean (value : Any) : result (option bool) :=
  match value with
  | PyNone => Ok None
  | PyBool b => Ok (Some b)
  | PyInt n =>
      if (n =? 0) || (n =? 1) then Ok (Some (negb (n =? 0)))
      else Raise (HTTPException 400 ValorNumericoInvalidoParaBooleano)
  | PyFloat x =>
      if SFeqb x (Float64.const 0) then Ok (Some false)
      else if SFeqb x (Float64.const 1) then Ok (Some true)
      else Raise (HTTPException 400 ValorNumericoInvalidoParaBooleano)
  | PyStr s =>
      let value_lower := Py.strip (Py.lower s) in
      if String.eqb value_lower "true" || String.eqb value_lower "1"
         || String.eqb value_lower "yes"
      then Ok (Some true)
      else if String.eqb value_lower "false" || String.eqb value_lower "0"
              || String.eqb value_lower "no"
      then Ok (Some false)
      else Raise (HTTPException 400 (ValorDeStringInvalidoParaBooleano s))
  | PyObject => Raise (HTTPException 400 TipoDeDatoInvalidoParaBooleano)
  end.

(* ===================================================================== *)
(** ** Request schemas ([api/models]) *)
(* ===================================================================== *)

(** The constraints of a [Field(...)] declaration, checked on a value that
    is present; each yields the entries it adds to the validation error. *)
Definition Errors : Type := list (string * ErrorType).

Definition int_range (loc : string) (ge le : Z) (v : option Z) : Errors :=
  match v with
  | Some x =>
      if x <? ge then [(loc, greater_than_equal)]
      else if le <? x then [(loc, less_than_equal)]
      else []
  | None => []
  end.

Definition float_range (loc : string) (ge le : Z) (v : option float) : Errors :=
  match v with
  | Some x =>
      if negb (Float64.leb (Float64.const ge) x) then [(loc, greater_than_equal)]
      else if negb (Float64.leb x (Float64.const le)) then [(loc, less_than_equal)]
      else []
  | None => []
  end.

Definition max_length (loc : string) (n : Z) (v : option string) : Errors :=
  match v with
  | Some s => if n <? Py.len s then [(loc, string_too_long)] else []
  | None => []
  end.

(** A [field_validator] that raises [ValueError] when [bad] holds. *)
Definition validator (loc : string) (bad : bool) : Errors :=
  if bad then [(loc, value_error)] else [].

(** The schema accepts the data or raises the collected entries. *)
Definition checked {A : Type} (data : A) (errors : Errors) : result A :=
  match errors with
  | [] => Ok data
  | _ => Raise (RequestValidationError errors)
  end.

(** The value of a field of an update schema when the request sets it to
    a non-null value. *)
Definition set_value {A : Type} (f : option (option A)) : option A :=
  match f with
  | Some v => v
  | None => None
  end.

(** [update_data.get(key, default)] *)
Definition get_default {A : Type} (f : option (option A)) (default : option A) : option A :=
  match f with
  | Some v => v
  | None => default
  end.

(** api/models/crashes.py *)
Module CreateCrash.
Record t : Type := Build
  { incident_date : datetime;
    latitude : float;
    longitude : float;
    street_no : option Z;
    street_name : option string }.

Definition validate (now : datetime) (d : t) : result t :=
  checked d
    (validator "incident_date" (datetime_gtb (incident_date d) now) ++
     float_range "latitude" (-90) 90 (Some (latitude d)) ++
     float_range "longitude" (-180) 180 (Some (longitude d)) ++
     int_range "street_no" 0 9999999 (street_no d) ++
     max_length "street_name" 255 (street_name d))%list.
End CreateCrash.

Module UpdateCrash.
Record t : Type := Build
  { incident_date : option (option datetime);
    latitude : option (option float);
    longitude : option (option float);
    street_no : option (option Z);
    street_name : option (option string) }.

Definition validate (now : datetime) (d : t) : result t :=
  checked d
    (validator "incident_date"
       match set_value (incident_date d) with
       | Some v => datetime_gtb v now
       | None => false
       end ++
     float_range "latitude" (-90) 90 (set_value (latitude d)) ++
     float_range "longitude" (-180) 180 (set_value (longitude d)) ++
     int_range "street_no" 0 9999999 (set_value (street_no d)) ++
     max_length "street_name" 255 (set_value (street_name d)))%list.
End UpdateCrash.

(** api/models/crash_circumstances.py *)
Module CreateCrashCircumstances.
Record t : Type := Build
  { crash_record_id : string;
    traffic_control_device : option string;
    device_condition : option string;
    weather_condition : option string;
    lighting_condition : option string;
    lane_cnt : option Z;
    roadway_surface_cond : option string;
    road_defect : option string;
    num_units : option Z;
    posted_speed_limit : option Z;
    intersection_related_i : option bool;
    not_right_of_way_i : option bool }.

Definition validate (d : t) : result t :=
  checked d
    (max_length "traffic_control_device" 100 (traffic_control_device d) ++
     max_length "device_condition" 100 (device_condition d) ++
     max_length "weather_condition" 100 (weather_condition d) ++
     max_length "lighting_condition" 100 (lighting_condition d) ++
     int_range "lane_cnt" 0 25 (lane_cnt d) ++
     max_length "roadway_surface_cond" 100 (roadway_surface_cond d) ++
     max_length "road_defect" 100 (road_defect d) ++
     int_range "num_units" 0 100 (num_units d) ++
     int_range "posted_speed_limit" 0 500 (posted_speed_limit d))%list.
End CreateCrashCircumstances.

(** api/models/driver_info.py *)
Module CreateDriverInfo.
Record t : Type := Build
  { person_id : string;
    driver_action : option string;
    driver_vision : option string;
    physical_condition : option string;
    bac_result_value : option float;
    cell_phone_use : option bool;
    drivers_license_class : option string }.

(** [min_length=8, max_length=8, pattern=r'^Q\d{7}$'] *)
Definition person_id_errors (s : string) : Errors :=
  if Py.len s <? 8 then [("person_id", string_too_short)]
  else if 8 <? Py.len s then [("person_id", string_too_long)]
  else if negb (matches_person_id s) then [("person_id", string_pattern_mismatch)]
  else [].

(** The [Field] bounds come first; [validate_bac_reasonable] runs on a
    value that passed them, where it never raises. *)
Definition bac_errors (v : option float) : Errors :=
  match float_range "bac_result_value" 0 1 v with
  | [] =>
      validator "bac_result_value"
        match v with
        | Some x => Float64.ltb x (Float64.const 0)
        | None => false
        end
  | errors => errors
  end.

Definition validate (d : t) : result t :=
  checked d
    (person_id_errors (person_id d) ++
     max_length "driver_action" 50 (driver_action d) ++
     max_length "driver_vision" 50 (driver_vision d) ++
     max_length "physical_condition" 50 (physical_condition d) ++
     bac_errors (bac_result_value d) ++
     max_length "drivers_license_class" 10 (drivers_license_class d))%list.
End CreateDriverInfo.

(** api/models/vehicle_violations.py *)
Module CreateVehicleViolation.
Record t : Type := Build
  { vehicle_id : Z;
    cmrc_veh_i : option bool;
    exceed_speed_limit_i : option bool;
    hazmat_present_i : option bool;
    vehicle_defect : option string }.

Definition validate (d : t) : result t :=
  checked d (max_length "vehicle_defect" 100 (vehicle_defect d)).
End CreateVehicleViolation.

Module UpdateVehicleViolation.
Record t : Type := Build
  { cmrc_veh_i : option (option bool);
    exceed_speed_limit_i : option (option bool);
    hazmat_present_i : option (option bool);
    vehicle_defect : option (option string) }.

Definition validate (d : t) : result t :=
  checked d (max_length "vehicle_defect" 100 (set_value (vehicle_defect d))).
End UpdateVehicleViolation.

(** api/models/people.py *)
Module CreatePeople.
Record t : Type := Build
  { person_type : option string;
    crash_record_id : option string;
    vehicle_id : option Z;
    sex : option string;
    age : option Z;
    safety_equipment : option string;
    airbag_deployed : option string;
    injury_classification : option string }.

Definition validate (d : t) : result t :=
  checked d
    (max_length "person_type" 50 (person_type d) ++
     max_length "sex" 10 (sex d) ++
     int_range "age" 0 120 (age d) ++
     max_length "safety_equipment" 200 (safety_equipment d) ++
     max_length "airbag_deployed" 100 (airbag_deployed d) ++
     max_length "injury_classification" 100 (injury_classification d))%list.
End CreatePeople.

Module UpdateCrashCircumstances.
Record t : Type := Build
  { traffic_control_device : option (option string);
    device_condition : option (option string);
    weather_condition : option (option string);
    lighting_condition : option (option string);
    lane_cnt : option (option Z);
    roadway_surface_cond : option (option string);
    road_defect : option (option string);
    num_units : option (option Z);
    posted_speed_limit : option (option Z);
    intersection_related_i : option (option bool);
    not_right_of_way_i : option (option bool) }.

Definition validate (d : t) : result t :=
  checked d
    (max_length "traffic_control_device" 100 (set_value (traffic_control_device d)) ++
     max_length "device_condition" 100 (set_value (device_condition d)) ++
     max_length "weather_condition" 100 (set_value (weather_condition d)) ++
     max_length "lighting_condition" 100 (set_value (lighting_condition d)) ++
     int_range "lane_cnt" 0 25 (set_value (lane_cnt d)) ++
     max_length "roadway_surface_cond" 100 (set_value (roadway_surface_cond d)) ++
     max_length "road_defect" 100 (set_value (road_defect d)) ++
     int_range "num_units" 0 100 (set_value (num_units d)) ++
     int_range "posted_speed_limit" 0 500 (set_value (posted_speed_limit d)))%list.
End UpdateCrashCircumstances.

Module UpdateDriverInfo.
Record t : Type := Build
  { driver_action : option (option string);
    driver_vision : option (option string);
    physical_condition : option (option string);
    bac_result_value : option (option float);
    cell_phone_use : option (option bool);
    drivers_license_class : option (option string) }.

Definition validate (d : t) : result t :=
  checked d
    (max_length "driver_action" 50 (set_value (driver_action d)) ++
     max_length "driver_vision" 50 (set_value (driver_vision d)) ++
     max_length "physical_condition" 50 (set_value (physical_condition d)) ++
     CreateDriverInfo.bac_errors (set_value (bac_result_value d)) ++
     max_length "drivers_license_class" 10 (set_value (drivers_license_class d)))%list.
End UpdateDriverInfo.


(* ===================================================================== *)
(** ** Routers ([api/routers]) *)
(* ===================================================================== *)

(** A router method runs against the session of the request: it returns
    or raises, and leaves the session with the writes made so far. *)
Definition M (A : Type) : Type := Session -> result A * Session.

Definition ret {A : Type} (a : A) : M A := fun db => (Ok a, db).

Definition raise {A : Type} (e : exn) : M A := fun db => (Raise e, db).

Definition bindM {A B : Type} (m : M A) (k : A -> M B) : M B :=
  fun db =>
    match m db with
    | (Ok a, db') => k a db'
    | (Raise e, db') => (Raise e, db')
    end.

(** A validator or generator that only reads the session. *)
Definition run {A : Type} (f : Session -> result A) : M A := fun db => (f db, db).

(** [db.query(Entity).get(key)] *)
Definition query {A : Type} (f : Session -> option A) : M (option A) :=
  fun db => (Ok (f db), db).

(** [db.add(row); db.flush()] *)
Definition add_flush (insert : Session -> result Session) : M unit :=
  fun db =>
    match insert db with
    | Ok db' => (Ok tt, db')
    | Raise e => (Raise e, db)
    end.

(** The [setattr] loop followed by [db.flush()]. *)
Definition set_flush (f : Session -> Session) : M unit := fun db => (Ok tt, f db).

Declare Scope M_scope.
Delimit Scope M_scope with M.
Bind Scope M_scope with M.
Notation "x <- m ;; k" := (bindM m (fun x => k))
  (at level 61, m at next level, right associativity) : M_scope.
Notation "m ;;; k" := (bindM m (fun _ => k))
  (at level 61, right associativity) : M_scope.

(** The [except] clauses every router method ends with: an
    [HTTPException] is raised again as it is; any other exception rolls
    the transaction back to the state [db0] it began in and becomes the
    [HTTPException] that [handler] gives. *)
Definition try_except {A : Type} (body : M A) (handler : exn -> exn) : M A :=
  fun db0 =>
    match body db0 with
    | (Ok a, db) => (Ok a, db)
    | (Raise (HTTPException s d), db) => (Raise (HTTPException s d), db)
    | (Raise e, _) => (Raise (handler e), db0)
    end.

(** [except IntegrityError] gives 400, [except Exception] gives 500. *)
Definition handler_default (e : exn) : exn :=
  match e with
  | IntegrityError => HTTPException 400 ErrorDeIntegridad
  | _ => HTTPException 500 (ErrorInterno (exn_name e))
  end.

(** PeopleRouter.create has one more clause, [except ValueError as e],
    which reports [str(e)] with status 500. *)
Definition handler_people (e : exn) : exn :=
  match e with
  | IntegrityError => HTTPException 400 ErrorDeIntegridad
  | ValueError message => HTTPException 500 message
  | _ => HTTPException 500 (ErrorInterno (exn_name e))
  end.

(** [x or default] *)
Definition or_else {A : Type} (o : option A) (default : A) : A :=
  match o with
  | Some v => v
  | None => default
  end.

Module CrashesRouter.

Definition create (now : datetime) (data : CreateCrash.t) : M Crash.t :=
  try_except
    (run (fun _ => validate_coordinates (Some (CreateCrash.latitude data))
                                         (Some (CreateCrash.longitude data))) ;;;
     run (fun _ => validate_date_not_future now (Some (CreateCrash.incident_date data))
                                             "incident_date") ;;;
     run (fun _ => when (truthy_str (CreateCrash.street_name data))
                     (validate_string_length (CreateCrash.street_name data) 255
                                             "street_name")) ;;;
     run (fun _ => when (is_some (CreateCrash.street_no data))
                     (validate_non_negative (CreateCrash.street_no data) "street_no")) ;;;
     truncated <- run (fun _ => truncate_coordinates (CreateCrash.latitude data)
                                                      (CreateCrash.longitude data) 6) ;;
     let '(lat_truncated, lon_truncated) := truncated in
     let crash_record_id :=
       generate_crash_record_id (CreateCrash.incident_date data)
         lat_truncated lon_truncated
         (or_else (CreateCrash.street_no data) 0)
         (or_else (CreateCrash.street_name data) "") in
     existing <- query (fun db => get_crash db crash_record_id) ;;
     if is_some existing
     then raise (HTTPException 409 (YaExiste "crash" crash_record_id))
     else
       let new_crash :=
         Crash.Build crash_record_id (Some (CreateCrash.incident_date data))
           (Some lat_truncated) (Some lon_truncated)
           (CreateCrash.street_no data) (CreateCrash.street_name data) in
       add_flush (add_crash new_crash) ;;;
       ret new_crash)%M
    handler_default.

(** The row after the [setattr] loop over the fields the request sets. *)
Definition apply_update (crash : Crash.t) (data : UpdateCrash.t) : Crash.t :=
  Crash.Build (Crash.crash_record_id crash)
    (get_default (UpdateCrash.incident_date data) (Crash.incident_date crash))
    (get_default (UpdateCrash.latitude data) (Crash.latitude crash))
    (get_default (UpdateCrash.longitude data) (Crash.longitude crash))
    (get_default (UpdateCrash.street_no data) (Crash.street_no crash))
    (get_default (UpdateCrash.street_name data) (Crash.street_name crash)).

Definition update (now : datetime) (crash_record_id : string) (data : UpdateCrash.t)
  : M Crash.t :=
  try_except
    (found <- query (fun db => get_crash db crash_record_id) ;;
     match found with
     | None => raise (HTTPException 404 (NoEncontrado "crash" crash_record_id))
     | Some crash =>
         run (fun _ =>
           when (is_some (UpdateCrash.latitude data) || is_some (UpdateCrash.longitude data))
             (validate_coordinates
                (get_default (UpdateCrash.latitude data) (Crash.latitude crash))
                (get_default (UpdateCrash.longitude data) (Crash.longitude crash)))) ;;;
         run (fun _ =>
           when (is_some (UpdateCrash.incident_date data))
             (validate_date_not_future now (set_value (UpdateCrash.incident_date data))
                                       "incident_date")) ;;;
         run (fun _ =>
           when (is_some (set_value (UpdateCrash.street_no data)))
             (validate_non_negative (set_value (UpdateCrash.street_no data)) "street_no")) ;;;
         run (fun _ =>
           when (truthy_str (set_value (UpdateCrash.street_name data)))
             (validate_string_length (set_value (UpdateCrash.street_name data)) 255
                                     "street_name")) ;;;
         let crash' := apply_update crash data in
         set_flush (replace_crash crash') ;;;
         ret crash'
     end)%M
    handler_default.

End CrashesRouter.

Definition replace_crash_circumstances (row : CrashCircumstances.t) (db : Session) : Session :=
  set_crash_circumstances
    (map (fun r => if String.eqb (CrashCircumstances.crash_record_id r)
                                 (CrashCircumstances.crash_record_id row)
                   then row else r) (crash_circumstances db)) db.

Definition replace_driver_info (row : DriverInfo.t) (db : Session) : Session :=
  set_driver_info
    (map (fun r => if String.eqb (DriverInfo.person_id r) (DriverInfo.person_id row)
                   then row else r) (driver_info db)) db.

(** [if data_dict[key] is not None:
       data_dict[key] = normalize_boolean(data_dict[key])]
    on a field the schema has typed [Optional[bool]]. *)
Definition normalize_field (v : option bool) : result (option bool) :=
  match v with
  | Some b => normalize_boolean (PyBool b)
  | None => Ok None
  end.

(** [except Exception] alone: every exception other than [HTTPException]
    gives 500. *)
Definition handler_exception (e : exn) : exn :=
  HTTPException 500 (ErrorInterno (exn_name e)).

Module CrashCircumstancesRouter.

Definition create (data : CreateCrashCircumstances.t) : M CrashCircumstances.t :=
  try_except
    (run (fun db => validate_foreign_key_exists db "crashes" "crash_record_id"
                      (PyStr (CreateCrashCircumstances.crash_record_id data))) ;;;
     existing <- query (fun db =>
                   get_crash_circumstances db (CreateCrashCircumstances.crash_record_id data)) ;;
     if is_some existing
     then raise (HTTPException 409
                   (YaExiste "crash_circumstances"
                             (CreateCrashCircumstances.crash_record_id data)))
     else
       run (fun _ => when (is_some (CreateCrashCircumstances.lane_cnt data))
                       (validate_non_negative (CreateCrashCircumstances.lane_cnt data)
                                              "lane_cnt")) ;;;
       run (fun _ => when (is_some (CreateCrashCircumstances.num_units data))
                       (validate_non_negative (CreateCrashCircumstances.num_units data)
                                              "num_units")) ;;;
       run (fun _ => when (is_some (CreateCrashCircumstances.posted_speed_limit data))
                       (validate_non_negative
                          (CreateCrashCircumstances.posted_speed_limit data)
                          "posted_speed_limit")) ;;;
       intersection <- run (fun _ =>
         normalize_field (CreateCrashCircumstances.intersection_related_i data)) ;;
       right_of_way <- run (fun _ =>
         normalize_field (CreateCrashCircumstances.not_right_of_way_i data)) ;;
       let new_circ :=
         CrashCircumstances.Build
           (CreateCrashCircumstances.crash_record_id data)
           (CreateCrashCircumstances.traffic_control_device data)
           (CreateCrashCircumstances.device_condition data)
           (CreateCrashCircumstances.weather_condition data)
           (CreateCrashCircumstances.lighting_condition data)
           (CreateCrashCircumstances.lane_cnt data)
           (CreateCrashCircumstances.roadway_surface_cond data)
           (CreateCrashCircumstances.road_defect data)
           (CreateCrashCircumstances.num_units data)
           (CreateCrashCircumstances.posted_speed_limit data)
           intersection right_of_way in
       add_flush (add_crash_circumstances new_circ) ;;;
       ret new_circ)%M
    handler_default.

Definition apply_update (circ : CrashCircumstances.t) (data : UpdateCrashCircumstances.t)
  : CrashCircumstances.t :=
  CrashCircumstances.Build
    (CrashCircumstances.crash_record_id circ)
    (get_default (UpdateCrashCircumstances.traffic_control_device data)
                 (CrashCircumstances.traffic_control_device circ))
    (get_default (UpdateCrashCircumstances.device_condition data)
                 (CrashCircumstances.device_condition circ))
    (get_default (UpdateCrashCircumstances.weather_condition data)
                 (CrashCircumstances.weather_condition circ))
    (get_default (UpdateCrashCircumstances.lighting_condition data)
                 (CrashCircumstances.lighting_condition circ))
    (get_default (UpdateCrashCircumstances.lane_cnt data)
                 (CrashCircumstances.lane_cnt circ))
    (get_default (UpdateCrashCircumstances.roadway_surface_cond data)
                 (CrashCircumstances.roadway_surface_cond circ))
    (get_default (UpdateCrashCircumstances.road_defect data)
                 (CrashCircumstances.road_defect circ))
    (get_default (UpdateCrashCircumstances.num_units data)
                 (CrashCircumstances.num_units circ))
    (get_default (UpdateCrashCircumstances.posted_speed_limit data)
                 (CrashCircumstances.posted_speed_limit circ))
    (get_default (UpdateCrashCircumstances.intersection_related_i data)
                 (CrashCircumstances.intersection_related_i circ))
    (get_default (UpdateCrashCircumstances.not_right_of_way_i data)
                 (CrashCircumstances.not_right_of_way_i circ)).

Definition update (crash_record_id : string) (data : UpdateCrashCircumstances.t)
  : M CrashCircumstances.t :=
  try_except
    (found <- query (fun db => get_crash_circumstances db crash_record_id) ;;
     match found with
     | None => raise (HTTPException 404 (NoEncontrado "crash_circumstances" crash_record_id))
     | Some circ =>
         run (fun _ =>
           when (is_some (set_value (UpdateCrashCircumstances.lane_cnt data)))
             (validate_non_negative (set_value (UpdateCrashCircumstances.lane_cnt data))
                                    "lane_cnt")) ;;;
         run (fun _ =>
           when (is_some (set_value (UpdateCrashCircumstances.num_units data)))
             (validate_non_negative (set_value (UpdateCrashCircumstances.num_units data))
                                    "num_units")) ;;;
         run (fun _ =>
           when (is_some (set_value (UpdateCrashCircumstances.posted_speed_limit data)))
             (validate_non_negative
                (set_value (UpdateCrashCircumstances.posted_speed_limit data))
                "posted_speed_limit")) ;;;
         let circ' := apply_update circ data in
         set_flush (replace_crash_circumstances circ') ;;;
         ret circ'
     end)%M
    handler_exception.

End CrashCircumstancesRouter.

Module DriverInfoRouter.

(** [value is not None and value < 0] on the BAC. *)
Definition bac_negative (v : option float) : bool :=
  match v with
  | Some x => Float64.ltb x (Float64.const 0)
  | None => false
  end.

Definition create (data : CreateDriverInfo.t) : M DriverInfo.t :=
  try_except
    (run (fun db => validate_foreign_key_exists db "people" "person_id"
                      (PyStr (CreateDriverInfo.person_id data))) ;;;
     existing <- query (fun db => get_driver_info db (CreateDriverInfo.person_id data)) ;;
     if is_some existing
     then raise (HTTPException 409
                   (YaExiste "driver_info" (CreateDriverInfo.person_id data)))
     else if bac_negative (CreateDriverInfo.bac_result_value data)
     then raise (HTTPException 400 BacNegativo)
     else
       let new_driver_info :=
         DriverInfo.Build
           (CreateDriverInfo.person_id data)
           (CreateDriverInfo.driver_action data)
           (CreateDriverInfo.driver_vision data)
           (CreateDriverInfo.physical_condition data)
           (CreateDriverInfo.bac_result_value data)
           (CreateDriverInfo.cell_phone_use data)
           (CreateDriverInfo.drivers_license_class data) in
       add_flush (add_driver_info new_driver_info) ;;;
       ret new_driver_info)%M
    handler_default.

Definition apply_update (row : DriverInfo.t) (data : UpdateDriverInfo.t) : DriverInfo.t :=
  DriverInfo.Build
    (DriverInfo.person_id row)
    (get_default (UpdateDriverInfo.driver_action data) (DriverInfo.driver_action row))
    (get_default (UpdateDriverInfo.driver_vision data) (DriverInfo.driver_vision row))
    (get_default (UpdateDriverInfo.physical_condition data)
                 (DriverInfo.physical_condition row))
    (get_default (UpdateDriverInfo.bac_result_value data) (DriverInfo.bac_result_value row))
    (get_default (UpdateDriverInfo.cell_phone_use data) (DriverInfo.cell_phone_use row))
    (get_default (UpdateDriverInfo.drivers_license_class data)
                 (DriverInfo.drivers_license_class row)).

Definition update (person_id : string) (data : UpdateDriverInfo.t) : M DriverInfo.t :=
  try_except
    (found <- query (fun db => get_driver_info db person_id) ;;
     match found with
     | None => raise (HTTPException 404 (NoEncontrado "driver_info" person_id))
     | Some driver_info =>
         if bac_negative (set_value (UpdateDriverInfo.bac_result_value data))
         then raise (HTTPException 400 BacNegativo)
         else
           let driver_info' := apply_update driver_info data in
           set_flush (replace_driver_info driver_info') ;;;
           ret driver_info'
     end)%M
    handler_default.

End DriverInfoRouter.

Module VehicleViolationsRouter.

Definition create (data : CreateVehicleViolation.t) : M VehicleViolations.t :=
  try_except
    (run (fun db => validate_foreign_key_exists db "vehicle" "vehicle_id"
                      (PyInt (CreateVehicleViolation.vehicle_id data))) ;;;
     existing <- query (fun db =>
                   get_vehicle_violations db (CreateVehicleViolation.vehicle_id data)) ;;
     if is_some existing
     then raise (HTTPException 409
                   (YaExiste "vehicle_violations"
                             (Py.str_int (CreateVehicleViolation.vehicle_id data))))
     else
       run (fun _ => when (truthy_str (CreateVehicleViolation.vehicle_defect data))
                       (validate_string_length
                          (CreateVehicleViolation.vehicle_defect data) 100
                          "vehicle_defect")) ;;;
       cmrc <- run (fun _ => normalize_field (CreateVehicleViolation.cmrc_veh_i data)) ;;
       exceed <- run (fun _ =>
         normalize_field (CreateVehicleViolation.exceed_speed_limit_i data)) ;;
       hazmat <- run (fun _ =>
         normalize_field (CreateVehicleViolation.hazmat_present_i data)) ;;
       let new_violation :=
         VehicleViolations.Build (CreateVehicleViolation.vehicle_id data)
           cmrc exceed hazmat (CreateVehicleViolation.vehicle_defect data) in
       add_flush (add_vehicle_violations new_violation) ;;;
       ret new_violation)%M
    handler_default.

Definition apply_update (violation : VehicleViolations.t) (data : UpdateVehicleViolation.t)
  : VehicleViolations.t :=
  VehicleViolations.Build
    (VehicleViolations.vehicle_id violation)
    (get_default (UpdateVehicleViolation.cmrc_veh_i data)
                 (VehicleViolations.cmrc_veh_i violation))
    (get_default (UpdateVehicleViolation.exceed_speed_limit_i data)
                 (VehicleViolations.exceed_speed_limit_i violation))
    (get_default (UpdateVehicleViolation.hazmat_present_i data)
                 (VehicleViolations.hazmat_present_i violation))
    (get_default (UpdateVehicleViolation.vehicle_defect data)
                 (VehicleViolations.vehicle_defect violation)).

Definition update (vehicle_id : Z) (data : UpdateVehicleViolation.t)
  : M VehicleViolations.t :=
  try_except
    (found <- query (fun db => get_vehicle_violations db vehicle_id) ;;
     match found with
     | None => raise (HTTPException 404
                        (NoEncontrado "vehicle_violations" (Py.str_int vehicle_id)))
     | Some violation =>
         run (fun _ =>
           when (truthy_str (set_value (UpdateVehicleViolation.vehicle_defect data)))
             (validate_string_length
                (set_value (UpdateVehicleViolation.vehicle_defect data)) 100
                "vehicle_defect")) ;;;
         let violation' := apply_update violation data in
         set_flush (replace_vehicle_violations violation') ;;;
         ret violation'
     end)%M
    handler_default.

End VehicleViolationsRouter.

Module PeopleRouter.

(** The truth value of an optional int: null and 0 are false. *)
Definition truthy_int (v : option Z) : bool :=
  match v with
  | Some n => negb (n =? 0)
  | None => false
  end.

Definition any_of_str (v : option string) : Any :=
  match v with Some s => PyStr s | None => PyNone end.

Definition any_of_int (v : option Z) : Any :=
  match v with Some n => PyInt n | None => PyNone end.

Definition create (data : CreatePeople.t) : M People.t :=
  try_except
    (run (fun db => when (truthy_str (CreatePeople.crash_record_id data))
                      (validate_foreign_key_exists db "crashes" "crash_record_id"
                         (any_of_str (CreatePeople.crash_record_id data)))) ;;;
     run (fun db => when (truthy_int (CreatePeople.vehicle_id data))
                      (validate_foreign_key_exists db "vehicle" "vehicle_id"
                         (any_of_int (CreatePeople.vehicle_id data)))) ;;;
     run (fun _ => when (is_some (CreatePeople.age data))
                     (validate_age (CreatePeople.age data))) ;;;
     person_id <- run generate_person_id ;;
     let new_person :=
       People.Build person_id
         (CreatePeople.person_type data)
         (CreatePeople.crash_record_id data)
         (CreatePeople.vehicle_id data)
         (CreatePeople.sex data)
         (CreatePeople.age data)
         (CreatePeople.safety_equipment data)
         (CreatePeople.airbag_deployed data)
         (CreatePeople.injury_classification data) in
     add_flush (add_people new_person) ;;;
     ret new_person)%M
    handler_people.

End PeopleRouter.

(* ===================================================================== *)
(** ** The application boundary ([main.py]) *)
(* ===================================================================== *)

Inductive Response (A : Type) : Type :=
  | Success (body : A)
  | Failure (status_code : Z) (detail : Detail).

Arguments Success {A} body.
Arguments Failure {A} status_code detail.

(** [validation_exception_handler]: a schema validation error is answered
    with 400 and the list of its entries; an [HTTPException] is answered
    with its own status and detail. *)
Definition respond {A : Type} (r : result A) : Response A :=
  match r with
  | Ok a => Success a
  | Raise (HTTPException s d) => Failure s d
  | Raise (RequestValidationError errors) => Failure 400 (ErrorDeValidacion errors)
  | Raise e => Failure 500 (ErrorInterno (exn_name e))
  end.

(** A route: the body is validated against the schema of the handler's
    parameter, and the handler runs only on a body that passed. *)
Definition endpoint {D A : Type} (validate : D -> result D) (handler : D -> M A)
  (body : D) : Session -> Response A * Session :=
  fun db =>
    match validate body with
    | Ok data => let '(r, db') := handler data db in (respond r, db')
    | Raise e => (respond (Raise e), db)
    end.

Definition post_crashes (now : datetime) :=
  endpoint (CreateCrash.validate now) (CrashesRouter.create now).

Definition put_crashes (now : datetime) (crash_record_id : string) :=
  endpoint (UpdateCrash.validate now) (CrashesRouter.update now crash_record_id).








(* ===================================================================== *)
(** ** Vocabulary of the properties and sample data *)
(* ===================================================================== *)

(** The numeric suffixes of the person_ids of the form Q + 7 digits. *)
Definition conforming_numbers (db : Session) : list Z :=
  map (fun r => person_number (People.person_id r))
      (filter (fun r => matches_person_id (People.person_id r)) (people db)).

(** The maximum of the suffixes, 0 when there is none. *)
Definition max_person_number (db : Session) : Z :=
  coalesce (sql_max (conforming_numbers db)) 0.

Definition person (person_id : string) : People.t :=
  People.Build person_id None None None None None None None None.

Definition people_db (ids : list string) : Session :=
  set_people (map person ids) empty_session.

Definition driver (person_id : string) : CreateDriverInfo.t :=
  CreateDriverInfo.Build person_id None None None None None None.

Definition update_latitude (x : float) : UpdateCrash.t :=
  UpdateCrash.Build None (Some (Some x)) None None None.






(** A float that is a zero or a finite number. *)
Definition is_finite (x : float) : bool :=
  match x with
  | S754_zero _ | S754_finite _ _ _ => true
  | _ => false
  end.

(** The float a decimal literal [n / d] denotes. *)
Definition decimal (n d : Z) : float :=
  match Float64.int_truediv n d with
  | Ok x => x
  | Raise _ => S754_nan
  end.

(** The scenario of the specification: a crash on N MICHIGAN AVE. *)
Definition scenario : CreateCrash.t :=
  CreateCrash.Build (Datetime 2024 1 15 14 30 0 0)
                    (decimal 418781 10000) (decimal (-876298) 10000)
                    (Some 1234) (Some "N MICHIGAN AVE").

Definition scenario_now : datetime := Datetime 2026 1 1 0 0 0 0.





(** The row the scenario stores, the session it leaves, and the row after
    its street name is changed. *)
Definition scenario_row : Crash.t :=
  Eval vm_compute in
    match fst (CrashesRouter.create scenario_now scenario empty_session) with
    | Ok row => row
    | Raise _ => Crash.Build "" None None None None None
    end.

Definition scenario_db : Session := set_crashes [scenario_row] empty_session.


(** A latitude whose truncation is not stable: 0.0002495, then what one
    and two truncations give, 0.000249 and 0.000248. *)
Definition unstable_latitude : float := S754_finite false 4602462646390533 (-64).
Definition truncated_once : float := S754_finite false 4593239274353678 (-64).
Definition truncated_twice : float := S754_finite false 4574792530279969 (-64).

(** A latitude just below a multiple of 10^-6, 41.878099999999996, and
    what its truncation gives, 41.8781. *)
Definition latitude_below : float := S754_finite false 5893818611093261 (-47).
Definition latitude_above : float := S754_finite false 5893818611093262 (-47).




(* ===================================================================== *)
(** ** Reading, listing and deleting ([api/routers], the other methods) *)
(* ===================================================================== *)


Definition PeopleRouter_get (person_id : string) : M People.t :=
  (found <- query (fun db => get_people db person_id) ;;
   match found with
   | None => raise (HTTPException 404 (NoEncontrado "people" person_id))
   | Some person => ret person
   end)%M.

Definition DriverInfoRouter_get (person_id : string) : M DriverInfo.t :=
  (found <- query (fun db => get_driver_info db person_id) ;;
   match found with
   | None => raise (HTTPException 404 (NoEncontrado "driver_info" person_id))
   | Some driver_info => ret driver_info
   end)%M.

Definition VehicleViolationsRouter_get (vehicle_id : Z) : M VehicleViolations.t :=
  (found <- query (fun db => get_vehicle_violations db vehicle_id) ;;
   match found with
   | None => raise (HTTPException 404
                      (NoEncontrado "vehicle_violations" (Py.str_int vehicle_id)))
   | Some violation => ret violation
   end)%M.

Definition CrashCircumstancesRouter_get (crash_record_id : string)
  : M CrashCircumstances.t :=
  (found <- query (fun db => get_crash_circumstances db crash_record_id) ;;
   match found with
   | None => raise (HTTPException 404
                      (NoEncontrado "crash_circumstances" crash_record_id))
   | Some circ => ret circ
   end)%M.

(** The outcome of a [list]: the page, the 400 the method raises for a
    limit outside [0, 1000], or the error of the store for a negative
    OFFSET, which the method does not catch. *)
Inductive Page (A : Type) : Type :=
  | Rows (rows : list A)
  | LimitRejected
  | OffsetRejected.

Arguments Rows {A} rows.
Arguments LimitRejected {A}.
Arguments OffsetRejected {A}.

(** [if limit > 1000 or limit < 0: raise ...] and then
    [db.query(Entity).offset(skip).limit(limit).all()]. *)
Definition paginate {A : Type} (skip limit : Z) (rows : list A) : Page A :=
  if (1000 <? limit) || (limit <? 0) then LimitRejected
  else if skip <? 0 then OffsetRejected
  else Rows (firstn (Z.to_nat limit) (skipn (Z.to_nat skip) rows)).

Definition CrashesRouter_list (skip limit : Z) (db : Session) : Page Crash.t :=
  paginate skip limit (crashes db).


Definition DriverInfoRouter_list (skip limit : Z) (db : Session) : Page DriverInfo.t :=
  paginate skip limit (driver_info db).

Definition VehicleViolationsRouter_list (skip limit : Z) (db : Session)
  : Page VehicleViolations.t :=
  paginate skip limit (vehicle_violations db).

Definition CrashCircumstancesRouter_list (skip limit : Z) (db : Session)
  : Page CrashCircumstances.t :=
  paginate skip limit (crash_circumstances db).

(** [db.delete(row); db.flush()]: the DELETE of the row with that key.
    No table refers to driver_info, vehicle_violations or
    crash_circumstances. *)
Definition remove_driver_info (key : string) (db : Session) : Session :=
  set_driver_info
    (filter (fun r => negb (String.eqb (DriverInfo.person_id r) key)) (driver_info db)) db.

Definition remove_vehicle_violations (key : Z) (db : Session) : Session :=
  set_vehicle_violations
    (filter (fun r => negb (VehicleViolations.vehicle_id r =? key))
            (vehicle_violations db)) db.

Definition remove_crash_circumstances (key : string) (db : Session) : Session :=
  set_crash_circumstances
    (filter (fun r => negb (String.eqb (CrashCircumstances.crash_record_id r) key))
            (crash_circumstances db)) db.

(** Deleting a person first deletes the driver_info the relationship
    owns ([cascade="all, delete-orphan"]), then the person. *)
Definition remove_people (key : string) (db : Session) : Session :=
  set_people
    (filter (fun r => negb (String.eqb (People.person_id r) key)) (people db))
    (remove_driver_info key db).

(** [delete] returns the key in its confirmation message. *)
Definition DriverInfoRouter_delete (person_id : string) : M string :=
  try_except
    (found <- query (fun db => get_driver_info db person_id) ;;
     match found with
     | None => raise (HTTPException 404 (NoEncontrado "driver_info" person_id))
     | Some _ =>
         set_flush (remove_driver_info person_id) ;;;
         ret person_id
     end)%M
    handler_default.

Definition VehicleViolationsRouter_delete (vehicle_id : Z) : M Z :=
  try_except
    (found <- query (fun db => get_vehicle_violations db vehicle_id) ;;
     match found with
     | None => raise (HTTPException 404
                        (NoEncontrado "vehicle_violations" (Py.str_int vehicle_id)))
     | Some _ =>
         set_flush (remove_vehicle_violations vehicle_id) ;;;
         ret vehicle_id
     end)%M
    handler_default.

Definition CrashCircumstancesRouter_delete (crash_record_id : string) : M string :=
  try_except
    (found <- query (fun db => get_crash_circumstances db crash_record_id) ;;
     match found with
     | None => raise (HTTPException 404
                        (NoEncontrado "crash_circumstances" crash_record_id))
     | Some _ =>
         set_flush (remove_crash_circumstances crash_record_id) ;;;
         ret crash_record_id
     end)%M
    handler_exception.

Definition PeopleRouter_delete (person_id : string) : M string :=
  try_except
    (found <- query (fun db => get_people db person_id) ;;
     match found with
     | None => raise (HTTPException 404 (NoEncontrado "people" person_id))
     | Some _ =>
         set_flush (remove_people person_id) ;;;
         ret person_id
     end)%M
    handler_default.

(** api/models/people.py, UpdatePeople: the schema has no [sex]. *)
Module UpdatePeople.
Record t : Type := Build
  { person_type : option (option string);
    crash_record_id : option (option string);
    vehicle_id : option (option Z);
    age : option (option Z);
    safety_equipment : option (option string);
    airbag_deployed : option (option string);
    injury_classification : option (option string) }.

Definition validate (d : t) : result t :=
  checked d
    (max_length "person_type" 50 (set_value (person_type d)) ++
     int_range "age" 0 120 (set_value (age d)) ++
     max_length "safety_equipment" 200 (set_value (safety_equipment d)) ++
     max_length "airbag_deployed" 100 (set_value (airbag_deployed d)) ++
     max_length "injury_classification" 100 (set_value (injury_classification d)))%list.
End UpdatePeople.


(** The UPDATE of a people row, which the store refuses with an
    [IntegrityError] when a foreign key of the row has no target. *)
Definition update_people (row : People.t) (db : Session) : result Session :=
  if negb (fk_ok (get_crash db) (People.crash_record_id row))
     || negb (fk_ok (get_vehicle db) (People.vehicle_id row))
  then Raise IntegrityError
  else Ok (set_people
             (map (fun r => if String.eqb (People.person_id r) (People.person_id row)
                            then row else r) (people db)) db).


(** api/models/vehicle.py. The validator of CreateVehicle returns the
    year it was given; the validator of UpdateVehicle has no [return], so
    the value it validated is replaced by [None]. *)
Module CreateVehicle.
Record t : Type := Build
  { crash_record_id : string;
    unit_no : option Z;
    unit_type : option string;
    num_passengers : option Z;
    vehicle_year : option Z;
    make : option string;
    model : option string;
    vehicle_type : option string }.

(** [ge=bound] alone. *)
Definition int_ge (loc : string) (bound : Z) (v : option Z) : Errors :=
  match v with
  | Some x => if x <? bound then [(loc, greater_than_equal)] else []
  | None => []
  end.

(** [ge=1900], and then [validate_year] on a year that passed. *)
Definition year_errors (now : datetime) (v : option Z) : Errors :=
  match int_ge "vehicle_year" 1900 v with
  | [] =>
      validator "vehicle_year"
        match v with
        | Some y => year now + 1 <? y
        | None => false
        end
  | errors => errors
  end.

Definition validate (now : datetime) (d : t) : result t :=
  checked d
    (int_ge "unit_no" 0 (unit_no d) ++
     max_length "unit_type" 30 (unit_type d) ++
     int_ge "num_passengers" 0 (num_passengers d) ++
     year_errors now (vehicle_year d) ++
     max_length "make" 200 (make d) ++
     max_length "model" 200 (model d) ++
     max_length "vehicle_type" 200 (vehicle_type d))%list.
End CreateVehicle.

Module UpdateVehicle.
Record t : Type := Build
  { crash_record_id : option (option string);
    unit_no : option (option Z);
    unit_type : option (option string);
    num_passengers : option (option Z);
    vehicle_year : option (option Z);
    make : option (option string);
    model : option (option string);
    vehicle_type : option (option string) }.

(** What [validate_year] leaves in the field: it runs on a value that is
    set and not null, and returns nothing. *)
Definition validated_year (v : option (option Z)) : option (option Z) :=
  match v with
  | Some (Some _) => Some None
  | other => other
  end.

Definition validate (now : datetime) (d : t) : result t :=
  checked
    (Build (crash_record_id d) (unit_no d) (unit_type d) (num_passengers d)
           (validated_year (vehicle_year d)) (make d) (model d) (vehicle_type d))
    (CreateVehicle.int_ge "unit_no" 0 (set_value (unit_no d)) ++
     max_length "unit_type" 30 (set_value (unit_type d)) ++
     CreateVehicle.int_ge "num_passengers" 0 (set_value (num_passengers d)) ++
     CreateVehicle.year_errors now (set_value (vehicle_year d)) ++
     max_length "make" 200 (set_value (make d)) ++
     max_length "model" 200 (set_value (model d)) ++
     max_length "vehicle_type" 200 (set_value (vehicle_type d)))%list.
End UpdateVehicle.

(** api/models/crash_classification.py, the field crash_record_id of
    CreateCrashClassification: [min_length=128, max_length=128] and then
    [validate_crash_id_format]. *)
Definition is_hex_char (c : ascii) : bool :=
  existsb (Ascii.eqb c) (list_ascii_of_string "0123456789abcdef").

Definition classification_id_errors (v : string) : Errors :=
  if Py.len v <? 128 then [("crash_record_id", string_too_short)]
  else if 128 <? Py.len v then [("crash_record_id", string_too_long)]
  else validator "crash_record_id" (negb (Py.string_forallb is_hex_char v)).



Definition nobody : CreatePeople.t :=
  CreatePeople.Build None None None None None None None None.


(** ** The routes of the application, as requests on the store *)











(** A handler that only reads; one that leaves the store as it was
    whenever it raises; and one whose successful runs change the store by
    [step]. *)
Definition reads_only {A : Type} (m : M A) : Prop :=
  forall db r db', m db = (r, db') -> db' = db.

Definition fails_clean {A : Type} (m : M A) : Prop :=
  forall db e db', m db = (Raise e, db') -> db' = db.

Definition commits {A : Type} (step : Session -> Session -> Prop) (m : M A) : Prop :=
  forall db a db', m db = (Ok a, db') -> step db db'.

(** A handler that raises nothing but an [HTTPException] with one of the
    given status codes; and a piece of a handler whose [HTTPException]s
    have one of them, whatever else it raises. *)
Definition raises_statuses {A : Type} (statuses : list Z) (m : M A) : Prop :=
  forall db e db', m db = (Raise e, db') ->
  exists status_code detail, e = HTTPException status_code detail /\ In status_code statuses.

Definition http_statuses {A : Type} (statuses : list Z) (m : M A) : Prop :=
  forall db status_code detail db',
    m db = (Raise (HTTPException status_code detail), db') -> In status_code statuses.





(* ===================================================================== *)
(** * Properties *)
(* ===================================================================== *)

(** ** SHA-512 *)

(** The FIPS 180-4 test vector for ["abc"]. *)
Example sha512_abc :
  SHA512.hexdigest (SHA512.sha512 (Py.encode_utf8 "abc")) =
  "ddaf35a193617abacc417349ae20413112e6fa4e89a97ea20a9eeee64b55d39a2192992a274fc1a836ba3c23a3feebbd454d4423643ce80e2a9ac94fa54ca49f".
Proof. vm_compute. reflexivity. Qed.

(** ** Decimal strings *)

Lemma length_append (s1 s2 : string) :
  String.length (s1 ++ s2) = (String.length s1 + String.length s2)%nat.
Proof. induction s1 as [|c s1 IH]; simpl; [reflexivity | now rewrite IH]. Qed.

Lemma append_assoc (s1 s2 s3 : string) : (s1 ++ s2) ++ s3 = s1 ++ (s2 ++ s3).
Proof. induction s1 as [|c s1 IH]; simpl; [reflexivity | now rewrite IH]. Qed.

Lemma forallb_append (p : ascii -> bool) (s1 s2 : string) :
  Py.string_forallb p (s1 ++ s2) = Py.string_forallb p s1 && Py.string_forallb p s2.
Proof.
  induction s1 as [|c s1 IH]; simpl; [reflexivity|].
  rewrite IH. now rewrite andb_assoc.
Qed.

Lemma digit_cases (d : Z) :
  0 <= d < 10 ->
  d = 0 \/ d = 1 \/ d = 2 \/ d = 3 \/ d = 4 \/ d = 5 \/ d = 6 \/ d = 7 \/ d = 8 \/ d = 9.
Proof. lia. Qed.

Lemma digit_char_is_digit (d : Z) :
  0 <= d < 10 -> Py.is_digit (Py.digit_char d) = true.
Proof.
  intros H. destruct (digit_cases d H) as [E|[E|[E|[E|[E|[E|[E|[E|[E|E]]]]]]]]];
    subst d; reflexivity.
Qed.

Lemma digit_val_char (d : Z) :
  0 <= d < 10 -> Py.digit_val (Py.digit_char d) = d.
Proof.
  intros H. destruct (digit_cases d H) as [E|[E|[E|[E|[E|[E|[E|[E|[E|E]]]]]]]]];
    subst d; reflexivity.
Qed.

Lemma digit_val_range (c : ascii) :
  Py.is_digit c = true -> 0 <= Py.digit_val c < 10.
Proof.
  unfold Py.is_digit, Py.digit_val. intros H.
  apply andb_true_iff in H. destruct H as [H1 H2].
  apply N.leb_le in H1. apply N.leb_le in H2. lia.
Qed.

Lemma int_of_digits_acc_append (s1 s2 : string) (a : Z) :
  Py.int_of_digits_acc (s1 ++ s2) a = Py.int_of_digits_acc s2 (Py.int_of_digits_acc s1 a).
Proof.
  revert a. induction s1 as [|c s1 IH]; intros a; simpl; [reflexivity | apply IH].
Qed.

Lemma int_of_digits_acc_shift (s : string) (a : Z) :
  Py.int_of_digits_acc s a = a * 10 ^ Z.of_nat (String.length s) + Py.int_of_digits s.
Proof.
  unfold Py.int_of_digits. revert a.
  induction s as [|c s IH]; intros a.
  - simpl. lia.
  - cbn [Py.int_of_digits_acc String.length].
    rewrite (IH (10 * a + Py.digit_val c)), (IH (10 * 0 + Py.digit_val c)).
    rewrite Nat2Z.inj_succ, Z.pow_succ_r by lia. ring.
Qed.

Lemma int_of_digits_cons (c : ascii) (s : string) :
  Py.int_of_digits (String c s) =
  Py.digit_val c * 10 ^ Z.of_nat (String.length s) + Py.int_of_digits s.
Proof.
  unfold Py.int_of_digits at 1. cbn [Py.int_of_digits_acc].
  rewrite int_of_digits_acc_shift. ring.
Qed.

Lemma int_of_digits_range (s : string) :
  Py.string_forallb Py.is_digit s = true ->
  0 <= Py.int_of_digits s < 10 ^ Z.of_nat (String.length s).
Proof.
  induction s as [|c s IH]; intros H.
  - cbn. lia.
  - simpl in H. apply andb_true_iff in H. destruct H as [Hc Hs].
    rewrite int_of_digits_cons. specialize (IH Hs).
    pose proof (digit_val_range c Hc) as Hd.
    cbn [String.length]. rewrite Nat2Z.inj_succ, Z.pow_succ_r by lia.
    nia.
Qed.

Lemma digits_fuel_spec (f : nat) :
  forall n acc, 0 <= n < 10 ^ Z.of_nat f ->
  exists D, Py.digits_fuel f n acc = D ++ acc /\
            Py.string_forallb Py.is_digit D = true /\
            Py.int_of_digits D = n.
Proof.
  induction f as [|f IH]; intros n acc Hn.
  - exists "". cbn in *. repeat split. lia.
  - cbn [Py.digits_fuel].
    assert (Hm : 0 <= n mod 10 < 10) by (apply Z.mod_pos_bound; lia).
    destruct (n <? 10) eqn:Hlt.
    + apply Z.ltb_lt in Hlt.
      exists (String (Py.digit_char (n mod 10)) ""). repeat split.
      * cbn. now rewrite digit_char_is_digit.
      * rewrite int_of_digits_cons. cbn [String.length Py.int_of_digits Py.int_of_digits_acc].
        rewrite digit_val_char by exact Hm. rewrite Z.mod_small by lia. cbn. lia.
    + apply Z.ltb_ge in Hlt.
      rewrite Nat2Z.inj_succ, Z.pow_succ_r in Hn by lia.
      destruct (IH (n / 10) (String (Py.digit_char (n mod 10)) acc)) as (D & HD & Hall & Hval).
      { split; [apply Z.div_pos; lia | apply Z.div_lt_upper_bound; lia]. }
      exists (D ++ String (Py.digit_char (n mod 10)) ""). repeat split.
      * rewrite HD, append_assoc. reflexivity.
      * rewrite forallb_append, Hall. cbn. now rewrite digit_char_is_digit.
      * unfold Py.int_of_digits. rewrite int_of_digits_acc_append.
        fold (Py.int_of_digits D). rewrite Hval. cbn [Py.int_of_digits_acc].
        rewrite digit_val_char by exact Hm.
        pose proof (Z.div_mod n 10). lia.
Qed.

Lemma digits_fuel_length (f : nat) :
  forall n acc k, 0 <= n < 10 ^ Z.of_nat k -> (1 <= k)%nat ->
  (String.length (Py.digits_fuel f n acc) <= k + String.length acc)%nat.
Proof.
  induction f as [|f IH]; intros n acc k Hn Hk.
  - cbn. lia.
  - cbn [Py.digits_fuel]. destruct (n <? 10) eqn:Hlt.
    + cbn. lia.
    + apply Z.ltb_ge in Hlt.
      destruct k as [|[|k]]; [lia | cbn in Hn; lia |].
      rewrite Nat2Z.inj_succ, Z.pow_succ_r in Hn by lia.
      specialize (IH (n / 10) (String (Py.digit_char (n mod 10)) acc) (S k)).
      cbn [String.length] in IH.
      assert (0 <= n / 10 < 10 ^ Z.of_nat (S k)).
      { split; [apply Z.div_pos; lia | apply Z.div_lt_upper_bound; lia]. }
      specialize (IH H). lia.
Qed.

Lemma str_nat_fuel (n : Z) :
  0 <= n -> n < 10 ^ Z.of_nat (S (Z.to_nat (Z.log2 n))).
Proof.
  intros Hn. destruct (Z.eq_dec n 0) as [->|Hnz]; [cbn; lia|].
  pose proof (Z.log2_spec n ltac:(lia)) as [_ Hlog].
  pose proof (Z.log2_nonneg n) as Hl.
  rewrite Nat2Z.inj_succ, Z2Nat.id by exact Hl.
  eapply Z.lt_le_trans; [exact Hlog|].
  apply Z.pow_le_mono_l. lia.
Qed.

Lemma str_nat_spec (n : Z) :
  0 <= n ->
  Py.string_forallb Py.is_digit (Py.str_nat n) = true /\
  Py.int_of_digits (Py.str_nat n) = n.
Proof.
  intros Hn. unfold Py.str_nat.
  destruct (digits_fuel_spec _ n "" (conj Hn (str_nat_fuel n Hn))) as (D & HD & Hall & Hval).
  rewrite HD.
  assert (E : D ++ "" = D).
  { clear. induction D as [|c D IH]; simpl; [reflexivity | now rewrite IH]. }
  rewrite E. split; assumption.
Qed.

Lemma str_nat_length (n : Z) (k : nat) :
  0 <= n < 10 ^ Z.of_nat k -> (1 <= k)%nat -> (String.length (Py.str_nat n) <= k)%nat.
Proof.
  intros Hn Hk. unfold Py.str_nat.
  pose proof (digits_fuel_length (S (Z.to_nat (Z.log2 n))) n "" k Hn Hk) as H.
  cbn [String.length] in H. lia.
Qed.

Lemma zeros_length (k : nat) : String.length (Py.zeros k) = k.
Proof. induction k as [|k IH]; simpl; [reflexivity | now rewrite IH]. Qed.

Lemma zeros_digits (k : nat) : Py.string_forallb Py.is_digit (Py.zeros k) = true.
Proof. induction k as [|k IH]; simpl; [reflexivity | exact IH]. Qed.

Lemma zeros_value (k : nat) (s : string) :
  Py.int_of_digits (Py.zeros k ++ s) = Py.int_of_digits s.
Proof.
  induction k as [|k IH]; [reflexivity|].
  cbn [Py.zeros append]. rewrite int_of_digits_cons, IH.
  change (Py.digit_val "0") with 0. lia.
Qed.

(** A number below [10^width] is rendered on exactly [width] digits, and
    reads back as itself. *)
Lemma zero_pad_str_nat (width : nat) (n : Z) :
  0 <= n < 10 ^ Z.of_nat width -> (1 <= width)%nat ->
  String.length (Py.zero_pad width (Py.str_nat n)) = width /\
  Py.string_forallb Py.is_digit (Py.zero_pad width (Py.str_nat n)) = true /\
  Py.int_of_digits (Py.zero_pad width (Py.str_nat n)) = n.
Proof.
  intros Hn Hw. unfold Py.zero_pad.
  pose proof (str_nat_length n width Hn Hw) as Hlen.
  destruct (str_nat_spec n (proj1 Hn)) as [Hall Hval].
  repeat split.
  - rewrite length_append, zeros_length. lia.
  - rewrite forallb_append, zeros_digits, Hall. reflexivity.
  - rewrite zeros_value. exact Hval.
Qed.

(** ** Sequential person identifiers *)



Lemma fold_left_max_spec (l : list Z) :
  forall x,
    (fold_left Z.max l x = x \/ In (fold_left Z.max l x) l) /\
    x <= fold_left Z.max l x /\
    (forall y, In y l -> y <= fold_left Z.max l x).
Proof.
  induction l as [|a l IH]; intros x; cbn [fold_left].
  - split; [now left | split; [lia | intros y []]].
  - destruct (IH (Z.max x a)) as (Hin & Hle & Hall). split; [|split].
    + destruct Hin as [E|Hin].
      * destruct (Z.max_spec x a) as [[_ Hm]|[_ Hm]]; rewrite Hm in *.
        -- right. left. now symmetry.
        -- now left.
      * right. now right.
    + lia.
    + intros y [<-|Hy]; [lia | now apply Hall].
Qed.

Lemma sql_max_spec (l : list Z) :
  match sql_max l with
  | None => l = []
  | Some m => In m l /\ forall y, In y l -> y <= m
  end.
Proof.
  destruct l as [|x l]; cbn [sql_max]; [reflexivity|].
  destruct (fold_left_max_spec l x) as (Hin & Hle & Hall). split.
  - destruct Hin as [E|Hin]; [left; now symmetry | now right].
  - intros y [->|Hy]; [exact Hle | now apply Hall].
Qed.

Lemma person_number_range (s : string) :
  matches_person_id s = true -> 0 <= person_number s <= 9999999.
Proof.
  destruct s as [|c rest]; [discriminate|]. cbn [matches_person_id].
  intros H. apply andb_true_iff in H. destruct H as [H Hdig].
  apply andb_true_iff in H. destruct H as [_ Hlen]. apply Nat.eqb_eq in Hlen.
  unfold person_number. cbn [substring_from_2].
  pose proof (int_of_digits_range rest Hdig) as Hr. rewrite Hlen in Hr.
  change (10 ^ Z.of_nat 7) with 10000000 in Hr. lia.
Qed.

Lemma conforming_numbers_range (db : Session) (n : Z) :
  In n (conforming_numbers db) -> 0 <= n <= 9999999.
Proof.
  unfold conforming_numbers. intros H. apply in_map_iff in H.
  destruct H as (r & <- & Hr). apply filter_In in Hr. destruct Hr as [_ Hm].
  now apply person_number_range.
Qed.

Lemma max_person_number_spec (db : Session) :
  (conforming_numbers db = [] /\ max_person_number db = 0) \/
  (In (max_person_number db) (conforming_numbers db) /\
   forall n, In n (conforming_numbers db) -> n <= max_person_number db).
Proof.
  unfold max_person_number.
  pose proof (sql_max_spec (conforming_numbers db)) as H.
  destruct (sql_max (conforming_numbers db)) as [m|]; cbn [coalesce].
  - right. exact H.
  - left. now split.
Qed.

Lemma max_person_number_range (db : Session) : 0 <= max_person_number db <= 9999999.
Proof.
  destruct (max_person_number_spec db) as [[_ ->]|[Hin _]]; [lia|].
  now apply (conforming_numbers_range db).
Qed.

Lemma next_person_number_eq (db : Session) :
  next_person_number db = max_person_number db + 1.
Proof. reflexivity. Qed.

(** The identifier built for a number in range is well formed and carries
    that number. *)
Lemma person_id_well_formed (n : Z) :
  0 <= n <= 9999999 ->
  matches_person_id ("Q" ++ Py.format_0d 7 n) = true /\
  person_number ("Q" ++ Py.format_0d 7 n) = n.
Proof.
  intros Hn. unfold Py.format_0d.
  destruct (n <? 0) eqn:Hneg; [apply Z.ltb_lt in Hneg; lia|].
  destruct (zero_pad_str_nat 7 n) as (Hlen & Hdig & Hval);
    [change (10 ^ Z.of_nat 7) with 10000000; lia | lia |].
  cbn [append matches_person_id person_number substring_from_2].
  rewrite Hlen, Hdig. split; [reflexivity | exact Hval].
Qed.

Lemma generate_person_id_ok (db : Session) :
  max_person_number db < 9999999 ->
  generate_person_id db = Ok ("Q" ++ Py.format_0d 7 (max_person_number db + 1)).
Proof.
  intros H. unfold generate_person_id. rewrite next_person_number_eq.
  destruct (9999999 <? max_person_number db + 1) eqn:E; [apply Z.ltb_lt in E; lia|].
  reflexivity.
Qed.

Lemma generate_person_id_exhausted (db : Session) :
  max_person_number db = 9999999 ->
  generate_person_id db = Raise (ValueError LimiteMaximoPersonId).
Proof.
  intros H. unfold generate_person_id. rewrite next_person_number_eq, H. reflexivity.
Qed.

(** ** The exceptions the validators raise *)

Lemma validate_foreign_key_exists_raises db table_name column_name value e :
  validate_foreign_key_exists db table_name column_name value = Raise e ->
  e = ProgrammingError \/
  e = HTTPException 404 (NoExisteEnLaTabla column_name value table_name).
Proof.
  unfold validate_foreign_key_exists.
  destruct value; try discriminate;
    (destruct (select_column db table_name column_name) as [rows|];
     [destruct (existsb _ rows); [discriminate|] |]; intros [= <-]; auto).
Qed.

Lemma validate_age_raises age e :
  validate_age age = Raise e -> exists detail, e = HTTPException 400 detail.
Proof.
  unfold validate_age. destruct age as [a|]; [|discriminate].
  destruct (a <? 0); [intros [= <-]; eauto|].
  destruct (120 <? a); [intros [= <-]; eauto | discriminate].
Qed.

Lemma validate_coordinates_raises latitude longitude e :
  validate_coordinates latitude longitude = Raise e ->
  e = TypeError \/ exists detail, e = HTTPException 400 detail.
Proof.
  unfold validate_coordinates.
  destruct latitude as [lat|]; [|intros [= <-]; auto].
  destruct (negb (float_between (-90) lat 90)); [intros [= <-]; eauto|].
  destruct longitude as [lon|]; [|intros [= <-]; auto].
  destruct (negb (float_between (-180) lon 180)); [intros [= <-]; eauto | discriminate].
Qed.

Lemma validate_non_negative_raises value field_name e :
  validate_non_negative value field_name = Raise e ->
  exists detail, e = HTTPException 400 detail.
Proof.
  unfold validate_non_negative. destruct value as [v|]; [|discriminate].
  destruct (v <? 0); [intros [= <-]; eauto | discriminate].
Qed.

Lemma validate_date_not_future_raises now date field_name e :
  validate_date_not_future now date field_name = Raise e ->
  exists detail, e = HTTPException 400 detail.
Proof.
  unfold validate_date_not_future. destruct date as [d|]; [|discriminate].
  destruct (datetime_gtb d now); [intros [= <-]; eauto | discriminate].
Qed.

Lemma validate_string_length_raises value max_length field_name e :
  validate_string_length value max_length field_name = Raise e ->
  exists detail, e = HTTPException 400 detail.
Proof.
  unfold validate_string_length. destruct value as [s|]; [|discriminate].
  destruct (_ && _); [intros [= <-]; eauto | discriminate].
Qed.

Lemma generate_person_id_raises db e :
  generate_person_id db = Raise e -> e = ValueError LimiteMaximoPersonId.
Proof.
  unfold generate_person_id. destruct (9999999 <? _); [intros [= <-]; auto | discriminate].
Qed.

Ltac unfold_router :=
  unfold try_except, bindM, run, query, raise, ret, add_flush, set_flush, when.

Lemma people_create_exhausted_only (data : CreatePeople.t) (db db' : Session) :
  PeopleRouter.create data db = (Raise (HTTPException 500 LimiteMaximoPersonId), db') ->
  generate_person_id db = Raise (ValueError LimiteMaximoPersonId).
Proof.
  unfold PeopleRouter.create. unfold_router.
  destruct (truthy_str _);
    [destruct (validate_foreign_key_exists db "crashes" _ _) as [[]|e1] eqn:E1;
     [|apply validate_foreign_key_exists_raises in E1; destruct E1; subst; discriminate]|];
  (destruct (PeopleRouter.truthy_int _);
    [destruct (validate_foreign_key_exists db "vehicle" _ _) as [[]|e2] eqn:E2;
     [|apply validate_foreign_key_exists_raises in E2; destruct E2; subst; discriminate]|]);
  (destruct (is_some _);
    [destruct (validate_age _) as [[]|e3] eqn:E3;
     [|apply validate_age_raises in E3; destruct E3; subst; discriminate]|]);
  (destruct (generate_person_id db) as [pid|e4] eqn:E4;
    [destruct (add_people _ db) as [db1|e5] eqn:E5; [discriminate|];
     unfold add_people in E5; destruct (_ || _) in E5; [|discriminate];
     injection E5 as <-; discriminate
    |apply generate_person_id_raises in E4; subst; reflexivity]).
Qed.

Lemma people_create_exhausted (data : CreatePeople.t) (db : Session) :
  generate_person_id db = Raise (ValueError LimiteMaximoPersonId) ->
  when (truthy_str (CreatePeople.crash_record_id data))
       (validate_foreign_key_exists db "crashes" "crash_record_id"
          (PeopleRouter.any_of_str (CreatePeople.crash_record_id data))) = Ok tt ->
  when (PeopleRouter.truthy_int (CreatePeople.vehicle_id data))
       (validate_foreign_key_exists db "vehicle" "vehicle_id"
          (PeopleRouter.any_of_int (CreatePeople.vehicle_id data))) = Ok tt ->
  when (is_some (CreatePeople.age data)) (validate_age (CreatePeople.age data)) = Ok tt ->
  PeopleRouter.create data db = (Raise (HTTPException 500 LimiteMaximoPersonId), db).
Proof.
  intros Hgen H1 H2 H3. unfold PeopleRouter.create.
  unfold try_except, bindM, run. rewrite H1, H2, H3, Hgen. reflexivity.
Qed.

(** C3. Person ID generation returns "Q" followed by the successor of the
    maximum numeric suffix of the conforming person_ids, zero-padded to 7
    digits (Q0000001 when there is none); it fails exactly when that
    maximum is 9999999, with a [ValueError] of its own, which
    PeopleRouter.create answers with status 500 and the message of the
    exhausted identifier space, a response no other failure of the
    method produces. *)
Theorem person_id_generation (db : Session) :
  let mx := max_person_number db in
  let suffix := Py.zero_pad 7 (Py.str_nat (mx + 1)) in
  ((conforming_numbers db = [] /\ mx = 0) \/
   (In mx (conforming_numbers db) /\
    forall n, In n (conforming_numbers db) -> n <= mx)) /\
  (mx < 9999999 ->
   generate_person_id db = Ok ("Q" ++ suffix) /\
   String.length suffix = 7%nat /\
   Py.string_forallb Py.is_digit suffix = true /\
   Py.int_of_digits suffix = mx + 1) /\
  (conforming_numbers db = [] -> generate_person_id db = Ok "Q0000001") /\
  ((exists e, generate_person_id db = Raise e) <-> mx = 9999999) /\
  (forall e, generate_person_id db = Raise e -> e = ValueError LimiteMaximoPersonId) /\
  (forall data db',
     PeopleRouter.create data db = (Raise (HTTPException 500 LimiteMaximoPersonId), db') ->
     mx = 9999999) /\
  (mx = 9999999 ->
   forall data,
     when (truthy_str (CreatePeople.crash_record_id data))
          (validate_foreign_key_exists db "crashes" "crash_record_id"
             (PeopleRouter.any_of_str (CreatePeople.crash_record_id data))) = Ok tt ->
     when (PeopleRouter.truthy_int (CreatePeople.vehicle_id data))
          (validate_foreign_key_exists db "vehicle" "vehicle_id"
             (PeopleRouter.any_of_int (CreatePeople.vehicle_id data))) = Ok tt ->
     when (is_some (CreatePeople.age data)) (validate_age (CreatePeople.age data)) = Ok tt ->
     PeopleRouter.create data db = (Raise (HTTPException 500 LimiteMaximoPersonId), db)).
Proof.
  intros mx suffix. pose proof (max_person_number_range db) as Hrange. fold mx in Hrange.
  assert (Hiff : (exists e, generate_person_id db = Raise e) <-> mx = 9999999).
  { split.
    - intros [e He]. destruct (Z.eq_dec mx 9999999) as [|Hne]; [assumption|].
      rewrite generate_person_id_ok in He by (fold mx; lia). discriminate.
    - intros E. eexists. now apply generate_person_id_exhausted. }
  split; [apply max_person_number_spec|].
  split.
  { intros Hlt. split.
    - rewrite generate_person_id_ok by exact Hlt. unfold Py.format_0d.
      destruct (max_person_number db + 1 <? 0) eqn:E; [apply Z.ltb_lt in E; lia|].
      reflexivity.
    - apply zero_pad_str_nat; [change (10 ^ Z.of_nat 7) with 10000000; lia | lia]. }
  split.
  { intros Hnone. unfold generate_person_id, next_person_number.
    unfold conforming_numbers in Hnone. rewrite Hnone. reflexivity. }
  split; [exact Hiff|].
  split; [intros e; apply generate_person_id_raises|].
  split.
  - intros data db' H. apply Hiff. eexists.
    eapply people_create_exhausted_only. exact H.
  - intros E data H1 H2 H3. apply people_create_exhausted; try assumption.
    now apply generate_person_id_exhausted.
Qed.



Lemma person_id_generation_witness :
  generate_person_id (people_db ["Q0000001"; "X17"; "Q0000041"]) = Ok "Q0000042".
Proof.
  exact (proj1 (proj1 (proj2 (person_id_generation
           (people_db ["Q0000001"; "X17"; "Q0000041"]))) eq_refl)).
Defined.

(** ** Rows of another shape *)

Lemma generate_person_id_filter (db1 db2 : Session) :
  filter (fun r => matches_person_id (People.person_id r)) (people db1) =
  filter (fun r => matches_person_id (People.person_id r)) (people db2) ->
  generate_person_id db1 = generate_person_id db2.
Proof.
  intros H. unfold generate_person_id, next_person_number. now rewrite H.
Qed.

(** C10. The generated person_id depends only on the rows whose person_id
    is Q followed by exactly 7 digits: a row of any other shape, wherever
    it stands in the table, does not change the result, and a table with
    no conforming row gives Q0000001. *)
Theorem person_id_ignores_other_shapes :
  (forall db1 db2,
     filter (fun r => matches_person_id (People.person_id r)) (people db1) =
     filter (fun r => matches_person_id (People.person_id r)) (people db2) ->
     generate_person_id db1 = generate_person_id db2) /\
  (forall db before after row,
     people db = (before ++ after)%list ->
     matches_person_id (People.person_id row) = false ->
     generate_person_id (set_people (before ++ row :: after)%list db) =
     generate_person_id db) /\
  (forall db,
     (forall r, In r (people db) -> matches_person_id (People.person_id r) = false) ->
     generate_person_id db = Ok "Q0000001").
Proof.
  split; [exact generate_person_id_filter|]. split.
  - intros db before after row Hdb Hrow. apply generate_person_id_filter.
    cbn [people set_people]. rewrite Hdb, !filter_app. cbn [filter].
    now rewrite Hrow.
  - intros db Hall. unfold generate_person_id, next_person_number.
    replace (filter _ (people db)) with (@nil People.t); [reflexivity|].
    symmetry. induction (people db) as [|r l IH]; [reflexivity|].
    cbn [filter]. rewrite (Hall r (or_introl eq_refl)).
    apply IH. intros r' Hr'. apply Hall. now right.
Qed.

Lemma person_id_ignores_other_shapes_witness :
  generate_person_id (people_db ["Q0000007"; "Q12345678"; "q0000009"; "Q00000a9"]) =
  generate_person_id (people_db ["Q0000007"; "q0000009"; "Q00000a9"]) /\
  generate_person_id (people_db ["P0000009"; "Q123"]) = Ok "Q0000001".
Proof.
  destruct person_id_ignores_other_shapes as (_ & Hrow & Hnone). split.
  - apply (Hrow (people_db ["Q0000007"; "q0000009"; "Q00000a9"])
                [person "Q0000007"] [person "q0000009"; person "Q00000a9"]
                (person "Q12345678")); reflexivity.
  - apply Hnone. cbn. intros r [<-|[<-|[]]]; reflexivity.
Defined.

(** ** Foreign keys *)





Lemma checked_ok {A : Type} (d d' : A) (errors : Errors) :
  checked d errors = Ok d' -> d' = d /\ errors = [].
Proof. destruct errors; cbn; [intros [= <-]; auto | discriminate]. Qed.

Lemma checked_raise {A : Type} (d : A) (errors : Errors) :
  errors <> [] -> checked d errors = Raise (RequestValidationError errors).
Proof. destruct errors; [congruence | reflexivity]. Qed.





(** ** Crash update: failures write nothing *)

Lemma crash_update_raise_unchanged now crash_record_id data db e db' :
  CrashesRouter.update now crash_record_id data db = (Raise e, db') -> db' = db.
Proof.
  unfold CrashesRouter.update. unfold_router.
  destruct (get_crash db crash_record_id) as [crash|]; [|intros [= _ <-]; reflexivity].
  do 4 (match goal with
        | |- context [match (if ?c then ?v else Ok tt) with _ => _ end] =>
            let e := fresh "e" in
            destruct (if c then v else Ok tt) as [[]|e];
            [|destruct e; intros [= _ <-]; reflexivity]
        end).
  discriminate.
Qed.

Lemma respond_failure {A : Type} (r : result A) status detail :
  respond r = Failure status detail -> exists e, r = Raise e.
Proof. destruct r as [a|e]; [discriminate | eauto]. Qed.

Lemma float_range_outside loc ge le x :
  float_between ge x le = false ->
  exists ty, float_range loc ge le (Some x) = [(loc, ty)] /\
             (ty = greater_than_equal \/ ty = less_than_equal).
Proof.
  unfold float_between, float_range. intros H.
  destruct (Float64.leb (Float64.const ge) x); cbn in *.
  - rewrite H. cbn. eauto.
  - eauto.
Qed.

(** C8. A crash update that fails leaves the session as it was: whatever
    the failure (unknown key, a field rejected by the schema or by a
    validator of the router), no row of any table changes. A latitude
    outside [-90, 90], such as 95, is rejected with status 400 by the
    schema at the boundary and by validate_coordinates in the router, in
    both cases before any write. *)
Theorem crash_update_failure_writes_nothing now crash_record_id body db :
  (forall status detail db',
     put_crashes now crash_record_id body db = (Failure status detail, db') ->
     db' = db /\ get_crash db' crash_record_id = get_crash db crash_record_id) /\
  (forall e db',
     CrashesRouter.update now crash_record_id body db = (Raise e, db') -> db' = db) /\
  (forall x,
     set_value (UpdateCrash.latitude body) = Some x ->
     float_between (-90) x 90 = false ->
     (exists errors ty,
        put_crashes now crash_record_id body db =
        (Failure 400 (ErrorDeValidacion errors), db) /\
        In ("latitude", ty) errors /\
        (ty = greater_than_equal \/ ty = less_than_equal)) /\
     (forall crash,
        get_crash db crash_record_id = Some crash ->
        CrashesRouter.update now crash_record_id body db =
        (Raise (HTTPException 400 (LatitudInvalida (Some x))), db))).
Proof.
  assert (Hraise : forall e db',
            CrashesRouter.update now crash_record_id body db = (Raise e, db') -> db' = db).
  { intros e db'. apply crash_update_raise_unchanged. }
  split; [|split; [exact Hraise|]].
  - intros status detail db'. unfold put_crashes, endpoint.
    destruct (UpdateCrash.validate now body) as [data|e] eqn:Hv.
    + apply checked_ok in Hv. destruct Hv as [-> _].
      destruct (CrashesRouter.update now crash_record_id body db) as [r db1] eqn:Hu.
      intros [= Hr <-]. apply respond_failure in Hr. destruct Hr as [e ->].
      apply crash_update_raise_unchanged in Hu. subst. auto.
    + intros [= _ <-]. auto.
  - intros x Hx Hout. split.
    + destruct (float_range_outside "latitude" (-90) 90 x Hout) as (ty & Hty & Hkind).
      unfold put_crashes, endpoint, UpdateCrash.validate. rewrite Hx, Hty.
      match goal with
      | |- context [checked body ?l] =>
          assert (Hin : In ("latitude", ty) l) by
            (apply in_or_app; right; apply in_or_app; left; now left);
          destruct l as [|err errors] eqn:El; [destruct Hin|]
      end.
      cbn [checked respond]. exists (err :: errors), ty. auto.
    + intros crash Hget. unfold CrashesRouter.update. unfold_router. rewrite Hget.
      destruct (UpdateCrash.latitude body) as [[lat|]|] eqn:Hlat; try discriminate.
      cbn in Hx. injection Hx as ->. cbn [is_some orb get_default].
      unfold validate_coordinates. rewrite Hout. reflexivity.
Qed.


Lemma crash_update_failure_writes_nothing_witness :
  exists errors,
    put_crashes (Datetime 2026 1 1 0 0 0 0) "abc" (update_latitude (Float64.const 95))
                empty_session =
    (Failure 400 (ErrorDeValidacion errors), empty_session).
Proof.
  destruct (proj1 (proj2 (proj2 (crash_update_failure_writes_nothing
              (Datetime 2026 1 1 0 0 0 0) "abc" (update_latitude (Float64.const 95))
              empty_session)) (Float64.const 95) eq_refl eq_refl))
    as (errors & ty & H & _).
  exists errors. exact H.
Defined.

(** ** Ranged numeric fields *)

Lemma int_range_inside loc ge le x :
  int_range loc ge le (Some x) = [] <-> ge <= x <= le.
Proof.
  unfold int_range. destruct (x <? ge) eqn:E1; [apply Z.ltb_lt in E1|apply Z.ltb_ge in E1].
  - split; [discriminate | lia].
  - destruct (le <? x) eqn:E2; [apply Z.ltb_lt in E2|apply Z.ltb_ge in E2].
    + split; [discriminate | lia].
    + split; [lia | reflexivity].
Qed.



Lemma float_range_inside loc ge le x :
  float_range loc ge le (Some x) = [] <-> float_between ge x le = true.
Proof.
  unfold float_range, float_between.
  destruct (Float64.leb (Float64.const ge) x); cbn.
  - destruct (Float64.leb x (Float64.const le)); cbn; split; congruence.
  - split; discriminate.
Qed.

(** Above 1.0 means not below 0.0 and not at most 1.0. *)
Lemma above_one (x : float) :
  Float64.ltb (Float64.const 1) x = true ->
  Float64.leb (Float64.const 0) x = true /\ Float64.leb x (Float64.const 1) = false.
Proof.
  unfold Float64.ltb, Float64.leb, SFltb, SFleb.
  change (Float64.const 1) with (S754_finite false 4503599627370496 (-52)).
  change (Float64.const 0) with (S754_zero false).
  destruct x as [s|s| |s m e]; cbn [SFcompare]; try discriminate.
  - destruct s; [discriminate | auto].
  - destruct s; [discriminate|]. intros H. split; [reflexivity|].
    rewrite (Z.compare_antisym (-52) e).
    destruct (-52 ?= e) eqn:E; cbn [CompOpp] in *; try discriminate; try reflexivity.
    pose proof (Pos.compare_cont_antisym 4503599627370496 m Eq) as Ha.
    cbn [CompOpp] in Ha. rewrite <- Ha.
    destruct (Pos.compare_cont Eq 4503599627370496 m); cbn; try discriminate; reflexivity.
Qed.

Lemma bac_above_one (x : float) :
  Float64.ltb (Float64.const 1) x = true ->
  CreateDriverInfo.bac_errors (Some x) = [("bac_result_value", less_than_equal)].
Proof.
  intros H. destruct (above_one x H) as [H0 H1].
  unfold CreateDriverInfo.bac_errors, float_range. rewrite H0, H1. reflexivity.
Qed.









(** ** The digest in hexadecimal *)

Lemma hex_char_lower (d : Z) :
  0 <= d < 16 -> SHA512.is_lower_hex (SHA512.hex_char d) = true.
Proof.
  intros H.
  assert (d = 0 \/ d = 1 \/ d = 2 \/ d = 3 \/ d = 4 \/ d = 5 \/ d = 6 \/ d = 7 \/
          d = 8 \/ d = 9 \/ d = 10 \/ d = 11 \/ d = 12 \/ d = 13 \/ d = 14 \/ d = 15)
    as E by lia.
  repeat (destruct E as [E|E]; [subst d; reflexivity|]). subst d. reflexivity.
Qed.

Lemma hex_word_length (k : nat) (w : Z) : String.length (SHA512.hex_word k w) = k.
Proof. induction k as [|k IH]; cbn [SHA512.hex_word String.length]; [reflexivity | now rewrite IH]. Qed.

Lemma hex_word_lower (k : nat) (w : Z) :
  Py.string_forallb SHA512.is_lower_hex (SHA512.hex_word k w) = true.
Proof.
  induction k as [|k IH]; cbn [SHA512.hex_word Py.string_forallb]; [reflexivity|].
  rewrite IH, andb_true_r. apply hex_char_lower.
  change 15 with (Z.ones 4). rewrite Z.land_ones by lia.
  apply Z.mod_pos_bound. reflexivity.
Qed.

(** [hexdigest()] is 128 lowercase hexadecimal characters, whatever the
    digest. *)
Lemma hexdigest_shape (s : SHA512.state) :
  String.length (SHA512.hexdigest s) = 128%nat /\
  Py.string_forallb SHA512.is_lower_hex (SHA512.hexdigest s) = true.
Proof.
  unfold SHA512.hexdigest. split.
  - rewrite !length_append, !hex_word_length. reflexivity.
  - rewrite !forallb_append, !hex_word_lower. reflexivity.
Qed.

(** ** Floats: rounding never leaves the non-negative mantissas *)

Lemma iter_pos_invariant {A : Type} (P : A -> Prop) (f : A -> A) :
  (forall x, P x -> P (f x)) -> forall n x, P x -> P (iter_pos f n x).
Proof.
  intros Hf. induction n as [n IH|n IH|]; intros x Hx; cbn [iter_pos]; auto.
Qed.

Lemma shr_1_nonneg (mrs : shr_record) : 0 <= shr_m mrs -> 0 <= shr_m (shr_1 mrs).
Proof.
  destruct mrs as [m r s]. destruct m as [|[p|p|]|[p|p|]]; cbn; lia.
Qed.

Lemma shr_fexp_nonneg (m e : Z) (l : location) :
  0 <= m -> 0 <= shr_m (fst (shr_fexp Float64.prec Float64.emax m e l)).
Proof.
  intros Hm. unfold shr_fexp, shr.
  assert (H0 : 0 <= shr_m (shr_record_of_loc m l)).
  { destruct l as [|[]]; exact Hm. }
  destruct (_ - e) as [|p|p]; cbn [fst]; try exact H0.
  apply (iter_pos_invariant (fun mrs => 0 <= shr_m mrs)); [exact shr_1_nonneg | exact H0].
Qed.

Lemma binary_round_aux_finite (s : bool) (m e : Z) (l : location) :
  0 <= m ->
  match binary_round_aux Float64.prec Float64.emax s m e l with
  | S754_nan => False
  | _ => True
  end.
Proof.
  intros Hm. unfold binary_round_aux.
  pose proof (shr_fexp_nonneg m e l Hm) as H1.
  destruct (shr_fexp Float64.prec Float64.emax m e l) as [mrs' e'] eqn:E1. cbn [fst] in H1.
  assert (H2 : 0 <= round_nearest_even (shr_m mrs') (loc_of_shr_record mrs')).
  { unfold round_nearest_even.
    destruct (loc_of_shr_record mrs') as [|[]]; try lia.
    destruct (Z.even (shr_m mrs')); lia. }
  pose proof (shr_fexp_nonneg _ e' loc_Exact H2) as H3.
  destruct (shr_fexp Float64.prec Float64.emax _ e' loc_Exact) as [mrs'' e''].
  cbn [fst] in H3.
  destruct (shr_m mrs'') as [|p|p]; [exact I | | lia].
  destruct (e'' <=? _); exact I.
Qed.

Lemma int_truediv_finite (a b : Z) (x : float) :
  Float64.int_truediv a b = Ok x -> is_finite x = true.
Proof.
  unfold Float64.int_truediv.
  destruct (b =? 0) eqn:Hb; [discriminate|].
  destruct (a =? 0); [intros [= <-]; reflexivity|].
  apply Z.eqb_neq in Hb.
  unfold SFdiv_core_binary.
  match goal with
  | |- context [Z.div_eucl ?n ?d] =>
      assert (Hn : 0 <= n);
      [| pose proof (Z_div_mod n d ltac:(lia)) as Hdiv;
         destruct (Z.div_eucl n d) as [q r] ]
  end.
  { destruct (_ - _) as [|p|p]; try lia. apply Z.shiftl_nonneg. lia. }
  assert (Hq : 0 <= q) by nia.
  pose proof (binary_round_aux_finite (xorb (a <? 0) (b <? 0)) q
                (Z.min (fexp Float64.prec Float64.emax
                          (Zdigits2 (Z.abs a) + 0 - (Zdigits2 (Z.abs b) + 0))) (0 - 0))
                (new_location (Z.abs b) r) Hq) as Hfin.
  destruct (binary_round_aux _ _ _ _ _ _) eqn:E; try discriminate; try contradiction;
    intros [= <-]; reflexivity.
Qed.



(** [int(x)] drops the fraction of a finite float toward zero: it is the
    quotient of [Z.quot], not the floor of [Z.div]. *)
Lemma to_int_toward_zero (s : bool) (m : positive) (p : positive) :
  Float64.to_int (S754_finite s m (Zneg p)) =
  Ok (Z.quot (if s then Zneg m else Zpos m) (2 ^ Zpos p)).
Proof.
  cbn [Float64.to_int]. f_equal.
  assert (Hden : 0 < 2 ^ Zpos p) by (apply Z.pow_pos_nonneg; lia).
  rewrite Z.shiftr_div_pow2 by lia.
  destruct s.
  - change (Zneg m) with (- Zpos m). rewrite Z.quot_opp_l by lia.
    rewrite Z.quot_div_nonneg by lia. reflexivity.
  - rewrite Z.quot_div_nonneg by lia. reflexivity.
Qed.

Lemma truncate_finite (value : float) (factor : Z) (x : float) :
  truncate value factor = Ok x -> is_finite x = true.
Proof.
  unfold truncate, bind.
  destruct (Float64.mul_int value factor); [|discriminate].
  destruct (Float64.to_int _); [|discriminate].
  apply int_truediv_finite.
Qed.

(** ** Crash creation *)

(** What a successful create has done. *)
Lemma crash_create_ok now data db row db' :
  CrashesRouter.create now data db = (Ok row, db') ->
  exists lat_truncated lon_truncated,
    truncate (CreateCrash.latitude data) 1000000 = Ok lat_truncated /\
    truncate (CreateCrash.longitude data) 1000000 = Ok lon_truncated /\
    row = Crash.Build
            (generate_crash_record_id (CreateCrash.incident_date data)
               lat_truncated lon_truncated
               (or_else (CreateCrash.street_no data) 0)
               (or_else (CreateCrash.street_name data) ""))
            (Some (CreateCrash.incident_date data))
            (Some lat_truncated) (Some lon_truncated)
            (CreateCrash.street_no data) (CreateCrash.street_name data) /\
    get_crash db (Crash.crash_record_id row) = None /\
    db' = set_crashes (crashes db ++ [row])%list db /\
    validate_coordinates (Some (CreateCrash.latitude data))
                         (Some (CreateCrash.longitude data)) = Ok tt /\
    when (truthy_str (CreateCrash.street_name data))
         (validate_string_length (CreateCrash.street_name data) 255 "street_name") = Ok tt /\
    when (is_some (CreateCrash.street_no data))
         (validate_non_negative (CreateCrash.street_no data) "street_no") = Ok tt.
Proof.
  unfold CrashesRouter.create. unfold try_except, bindM, run, query, raise, ret, add_flush.
  destruct (validate_coordinates _ _) as [[]|e1]; [|destruct e1; discriminate].
  unfold validate_date_not_future.
  destruct (datetime_gtb (CreateCrash.incident_date data) now) eqn:Hdate; [discriminate|].
  destruct (when (truthy_str _) _) as [[]|e3]; [|destruct e3; discriminate].
  destruct (when (is_some _) _) as [[]|e4]; [|destruct e4; discriminate].
  unfold truncate_coordinates, bind. change (10 ^ Z.of_nat 6) with 1000000.
  destruct (truncate (CreateCrash.latitude data) 1000000) as [lat|e5];
    [|destruct e5; discriminate].
  destruct (truncate (CreateCrash.longitude data) 1000000) as [lon|e6];
    [|destruct e6; discriminate].
  destruct (get_crash db _) as [existing|] eqn:Hget; [discriminate|].
  cbn [is_some]. unfold add_crash. cbn [Crash.crash_record_id].
  rewrite Hget. cbn [is_some].
  intros [= <- <-]. exists lat, lon. cbn [Crash.crash_record_id]. auto 10.
Qed.

(** A create whose identifier is taken is a conflict and writes nothing. *)
Lemma crash_create_conflict now data db lat_truncated lon_truncated existing :
  validate_coordinates (Some (CreateCrash.latitude data))
                       (Some (CreateCrash.longitude data)) = Ok tt ->
  datetime_gtb (CreateCrash.incident_date data) now = false ->
  when (truthy_str (CreateCrash.street_name data))
       (validate_string_length (CreateCrash.street_name data) 255 "street_name") = Ok tt ->
  when (is_some (CreateCrash.street_no data))
       (validate_non_negative (CreateCrash.street_no data) "street_no") = Ok tt ->
  truncate_coordinates (CreateCrash.latitude data) (CreateCrash.longitude data) 6 =
  Ok (lat_truncated, lon_truncated) ->
  get_crash db (generate_crash_record_id (CreateCrash.incident_date data)
                  lat_truncated lon_truncated
                  (or_else (CreateCrash.street_no data) 0)
                  (or_else (CreateCrash.street_name data) "")) = Some existing ->
  CrashesRouter.create now data db =
  (Raise (HTTPException 409
     (YaExiste "crash"
        (generate_crash_record_id (CreateCrash.incident_date data)
           lat_truncated lon_truncated
           (or_else (CreateCrash.street_no data) 0)
           (or_else (CreateCrash.street_name data) "")))), db).
Proof.
  intros H1 H2 H3 H4 H5 H6.
  unfold CrashesRouter.create. unfold try_except, bindM, run, query, raise.
  unfold validate_date_not_future. rewrite H1, H2, H3, H4, H5, H6. reflexivity.
Qed.




(** ** A second create with the same attributes *)

Lemma find_app_last {A : Type} (p : A -> bool) (l : list A) (x : A) :
  find p l = None -> p x = true -> find p (l ++ [x]) = Some x.
Proof.
  induction l as [|a l IH]; cbn [find app]; intros Hnone Hx.
  - now rewrite Hx.
  - destruct (p a); [discriminate | now apply IH].
Qed.

Lemma app_nil_both {A : Type} (l1 l2 : list A) :
  (l1 ++ l2)%list = [] -> l1 = [] /\ l2 = [].
Proof. destruct l1; [cbn; auto | discriminate]. Qed.

(** A body the schema of CreateCrash accepts passes the validators of the
    router. *)
Lemma create_crash_schema_valid now data :
  CreateCrash.validate now data = Ok data ->
  validate_coordinates (Some (CreateCrash.latitude data))
                       (Some (CreateCrash.longitude data)) = Ok tt /\
  datetime_gtb (CreateCrash.incident_date data) now = false /\
  when (truthy_str (CreateCrash.street_name data))
       (validate_string_length (CreateCrash.street_name data) 255 "street_name") = Ok tt /\
  when (is_some (CreateCrash.street_no data))
       (validate_non_negative (CreateCrash.street_no data) "street_no") = Ok tt.
Proof.
  unfold CreateCrash.validate. intros H. apply checked_ok in H. destruct H as [_ H].
  apply app_nil_both in H. destruct H as [Hdate H].
  apply app_nil_both in H. destruct H as [Hlat H].
  apply app_nil_both in H. destruct H as [Hlon H].
  apply app_nil_both in H. destruct H as [Hno Hname].
  apply float_range_inside in Hlat. apply float_range_inside in Hlon.
  repeat split.
  - unfold validate_coordinates. now rewrite Hlat, Hlon.
  - unfold validator in Hdate. destruct (datetime_gtb _ now); [discriminate | reflexivity].
  - unfold when, validate_string_length, max_length in *.
    destruct (CreateCrash.street_name data) as [s|]; [|reflexivity].
    destruct (255 <? Py.len s); [discriminate|]. rewrite andb_false_r.
    destruct (truthy_str (Some s)); reflexivity.
  - unfold when, validate_non_negative in *.
    destruct (CreateCrash.street_no data) as [n|]; [|reflexivity]. cbn [is_some].
    apply int_range_inside in Hno. destruct (n <? 0) eqn:E; [apply Z.ltb_lt in E; lia|].
    reflexivity.
Qed.

(** C6. When a Crash row already holds the content hash generated for a
    valid body, create fails with status 409 and the session is left as
    it was, so the existing row is neither overwritten nor modified; in
    particular a second create with the attributes of a created crash is
    such a conflict. *)
Theorem duplicate_crash_conflict :
  (forall now data db lat_truncated lon_truncated existing,
     CreateCrash.validate now data = Ok data ->
     truncate_coordinates (CreateCrash.latitude data) (CreateCrash.longitude data) 6 =
     Ok (lat_truncated, lon_truncated) ->
     let crash_record_id :=
       generate_crash_record_id (CreateCrash.incident_date data)
         lat_truncated lon_truncated
         (or_else (CreateCrash.street_no data) 0)
         (or_else (CreateCrash.street_name data) "") in
     get_crash db crash_record_id = Some existing ->
     post_crashes now data db = (Failure 409 (YaExiste "crash" crash_record_id), db)) /\
  (forall now now' data db row db',
     CrashesRouter.create now data db = (Ok row, db') ->
     datetime_gtb (CreateCrash.incident_date data) now' = false ->
     CrashesRouter.create now' data db' =
     (Raise (HTTPException 409 (YaExiste "crash" (Crash.crash_record_id row))), db') /\
     get_crash db' (Crash.crash_record_id row) = Some row /\
     crashes db' = (crashes db ++ [row])%list).
Proof.
  split.
  - intros now data db lat lon existing Hvalid Htrunc crash_record_id Hget.
    destruct (create_crash_schema_valid now data Hvalid) as (H1 & H2 & H3 & H4).
    unfold post_crashes, endpoint. rewrite Hvalid.
    rewrite (crash_create_conflict now data db lat lon existing H1 H2 H3 H4 Htrunc Hget).
    reflexivity.
  - intros now now' data db row db' Hcreate Hdate.
    apply crash_create_ok in Hcreate.
    destruct Hcreate as (lat & lon & Hlat & Hlon & Hrow & Hnone & Hdb & H1 & H3 & H4).
    assert (Hget : get_crash db' (Crash.crash_record_id row) = Some row).
    { subst db'. unfold get_crash in *. cbn [crashes set_crashes].
      apply find_app_last; [exact Hnone | apply String.eqb_refl]. }
    split; [|split; [exact Hget | subst db'; reflexivity]].
    assert (Htrunc : truncate_coordinates (CreateCrash.latitude data)
                       (CreateCrash.longitude data) 6 = Ok (lat, lon)).
    { unfold truncate_coordinates, bind. change (10 ^ Z.of_nat 6) with 1000000.
      now rewrite Hlat, Hlon. }
    assert (Hid : Crash.crash_record_id row =
                  generate_crash_record_id (CreateCrash.incident_date data) lat lon
                    (or_else (CreateCrash.street_no data) 0)
                    (or_else (CreateCrash.street_name data) "")).
    { rewrite Hrow. reflexivity. }
    rewrite Hid in *.
    apply (crash_create_conflict now' data db' lat lon row H1 Hdate H3 H4 Htrunc Hget).
Qed.

Lemma duplicate_crash_conflict_witness :
  CrashesRouter.create scenario_now scenario empty_session = (Ok scenario_row, scenario_db) /\
  CrashesRouter.create scenario_now scenario scenario_db =
  (Raise (HTTPException 409 (YaExiste "crash" (Crash.crash_record_id scenario_row))),
   scenario_db).
Proof.
  assert (E : CrashesRouter.create scenario_now scenario empty_session =
              (Ok scenario_row, scenario_db)) by (vm_compute; reflexivity).
  split; [exact E|].
  exact (proj1 (proj2 duplicate_crash_conflict scenario_now scenario_now scenario
                  empty_session scenario_row scenario_db E eq_refl)).
Defined.

(** ** The key as a content hash: kept on create, not on update *)








(** ** Coordinate truncation *)

(** C7, at the inputs where the code departs from it. Truncating
    0.0002495 gives 0.000249, and truncating that result again gives
    0.000248: the binary64 product 0.000249 * 10^6 is 248.99999999999997,
    which int() cuts to 248. And truncating 41.878099999999996 gives
    41.8781, a value above the input: the product rounds up to
    41878100.0 before int() is applied. *)
Lemma truncate_coordinates_not_idempotent :
  decimal 2495 10000000 = unstable_latitude /\
  decimal 249 1000000 = truncated_once /\
  decimal 248 1000000 = truncated_twice /\
  truncate_coordinates unstable_latitude (Float64.const 0) 6 =
    Ok (truncated_once, Float64.const 0) /\
  truncate_coordinates truncated_once (Float64.const 0) 6 =
    Ok (truncated_twice, Float64.const 0) /\
  truncated_once <> truncated_twice /\
  Float64.format_6f truncated_once = "0.000249" /\
  Float64.format_6f truncated_twice = "0.000248" /\
  truncate_coordinates latitude_below (Float64.const 0) 6 =
    Ok (latitude_above, Float64.const 0) /\
  Float64.ltb (Float64.const 0) latitude_below = true /\
  Float64.ltb latitude_below latitude_above = true /\
  Float64.format_6f latitude_above = "41.878100".
Proof.
  repeat split; try (vm_compute; reflexivity).
  intros E. discriminate E.
Qed.

(** ** Booleans on create and on update *)

Lemma normalize_field_id (v : option bool) : normalize_field v = Ok v.
Proof. destruct v; reflexivity. Qed.












(* ===================================================================== *)
(** * Further properties of the code *)
(* ===================================================================== *)

(** ** Generated identifiers are fresh *)

Lemma find_none_iff {A : Type} (p : A -> bool) (l : list A) :
  find p l = None <-> forall x, In x l -> p x = false.
Proof.
  split.
  - intros H x Hin. now apply (find_none p l H).
  - induction l as [|a l IH]; intros H; cbn; [reflexivity|].
    rewrite (H a (or_introl eq_refl)). apply IH. intros x Hx. apply H. now right.
Qed.




Lemma generate_person_id_value (db : Session) (pid : string) :
  generate_person_id db = Ok pid ->
  max_person_number db < 9999999 /\
  pid = "Q" ++ Py.format_0d 7 (max_person_number db + 1).
Proof.
  intros H. pose proof (max_person_number_range db) as Hr.
  destruct (Z.eq_dec (max_person_number db) 9999999) as [E|E].
  - rewrite generate_person_id_exhausted in H by exact E. discriminate.
  - assert (Hlt : max_person_number db < 9999999) by lia.
    rewrite generate_person_id_ok in H by exact Hlt. injection H as <-. auto.
Qed.

Lemma generate_person_id_fresh (db : Session) (pid : string) :
  generate_person_id db = Ok pid ->
  matches_person_id pid = true /\ get_people db pid = None.
Proof.
  intros H. apply generate_person_id_value in H. destruct H as [Hlt ->].
  pose proof (max_person_number_range db) as Hr.
  destruct (person_id_well_formed (max_person_number db + 1)) as [Hm Hn]; [lia|].
  split; [exact Hm|].
  unfold get_people. apply find_none_iff. intros row Hin.
  destruct (String.eqb_spec (People.person_id row)
              ("Q" ++ Py.format_0d 7 (max_person_number db + 1))) as [E|]; [|reflexivity].
  exfalso.
  assert (Hconf : In (max_person_number db + 1) (conforming_numbers db)).
  { unfold conforming_numbers. rewrite <- Hn, <- E.
    apply (in_map (fun r => person_number (People.person_id r))).
    apply filter_In. split; [exact Hin | now rewrite E]. }
  destruct (max_person_number_spec db) as [[Hnil _]|[_ Hall]].
  - rewrite Hnil in Hconf. destruct Hconf.
  - specialize (Hall _ Hconf). lia.
Qed.



(** X3. Writing a number between 0 and 9999999 as a person_id and reading
    the numeric part back gives the number again: the identifier matches
    the pattern, and two numbers give the same identifier only when they
    are equal. *)
Theorem person_id_round_trip (n m : Z) :
  0 <= n <= 9999999 -> 0 <= m <= 9999999 ->
  matches_person_id ("Q" ++ Py.format_0d 7 n) = true /\
  person_number ("Q" ++ Py.format_0d 7 n) = n /\
  String.length ("Q" ++ Py.format_0d 7 n) = 8%nat /\
  ("Q" ++ Py.format_0d 7 n = "Q" ++ Py.format_0d 7 m -> n = m).
Proof.
  intros Hn Hm.
  destruct (person_id_well_formed n Hn) as [Hmatch Hnum].
  destruct (person_id_well_formed m Hm) as [_ Hnum'].
  repeat split; try assumption.
  - cbn [append matches_person_id] in Hmatch. cbn [append String.length].
    apply andb_true_iff in Hmatch. destruct Hmatch as [Hmatch _].
    apply andb_true_iff in Hmatch. destruct Hmatch as [_ Hlen].
    apply Nat.eqb_eq in Hlen. now rewrite Hlen.
  - intros E. rewrite <- Hnum, <- Hnum', E. reflexivity.
Qed.

Lemma person_id_round_trip_witness :
  person_number ("Q" ++ Py.format_0d 7 42) = 42.
Proof.
  exact (proj1 (proj2 (person_id_round_trip 42 7 ltac:(lia) ltac:(lia)))).
Defined.


(** ** Creating people one after the other *)

(** What a successful create of a person has done. *)
Lemma people_create_ok data db row db' :
  PeopleRouter.create data db = (Ok row, db') ->
  exists person_id,
    generate_person_id db = Ok person_id /\
    row = People.Build person_id
            (CreatePeople.person_type data) (CreatePeople.crash_record_id data)
            (CreatePeople.vehicle_id data) (CreatePeople.sex data)
            (CreatePeople.age data) (CreatePeople.safety_equipment data)
            (CreatePeople.airbag_deployed data)
            (CreatePeople.injury_classification data) /\
    db' = set_people (people db ++ [row])%list db.
Proof.
  unfold PeopleRouter.create.
  unfold try_except, bindM, run, query, raise, ret, add_flush.
  do 3 (match goal with
        | |- context [match when ?c ?v with _ => _ end] =>
            let e := fresh "e" in
            destruct (when c v) as [[]|e]; [|destruct e; discriminate]
        end).
  destruct (generate_person_id db) as [pid|e4]; [|destruct e4; discriminate].
  destruct (add_people _ db) as [db1|e5] eqn:E; [|destruct e5; discriminate].
  intros [= <- <-]. exists pid. split; [reflexivity|]. split; [reflexivity|].
  unfold add_people in E. destruct (_ || _); [discriminate|].
  injection E as <-. reflexivity.
Qed.

Lemma max_person_number_after (db : Session) (row : People.t) :
  matches_person_id (People.person_id row) = true ->
  person_number (People.person_id row) = max_person_number db + 1 ->
  max_person_number (set_people (people db ++ [row])%list db) = max_person_number db + 1.
Proof.
  intros Hm Hn.
  assert (Hconf : conforming_numbers (set_people (people db ++ [row])%list db) =
                  (conforming_numbers db ++ [max_person_number db + 1])%list).
  { unfold conforming_numbers. cbn [people set_people].
    rewrite filter_app, map_app. cbn [filter]. rewrite Hm. cbn [map]. now rewrite Hn. }
  destruct (max_person_number_spec (set_people (people db ++ [row])%list db))
    as [[Hnil _]|[Hin Hall]].
  - rewrite Hconf in Hnil. destruct (conforming_numbers db); discriminate.
  - rewrite Hconf in Hin, Hall. apply in_app_or in Hin.
    assert (Hge : max_person_number db + 1 <=
                  max_person_number (set_people (people db ++ [row])%list db)).
    { apply Hall. apply in_or_app. right. now left. }
    destruct Hin as [Hin|[E|[]]]; [|now symmetry].
    destruct (max_person_number_spec db) as [[Hnil _]|[_ Hold]].
    + rewrite Hnil in Hin. destruct Hin.
    + specialize (Hold _ Hin). lia.
Qed.

Lemma people_create_generated data db row db' :
  PeopleRouter.create data db = (Ok row, db') ->
  generate_person_id db = Ok (People.person_id row) /\
  get_people db' (People.person_id row) = Some row.
Proof.
  intros H. apply people_create_ok in H. destruct H as (pid & Hgen & Hrow & Hdb).
  assert (Hid : People.person_id row = pid) by (rewrite Hrow; reflexivity).
  destruct (generate_person_id_fresh db pid Hgen) as [_ Hfresh].
  rewrite Hid. split; [exact Hgen|].
  rewrite Hdb. unfold get_people in *. cbn [people set_people].
  apply find_app_last; [exact Hfresh | rewrite Hid; apply String.eqb_refl].
Qed.

(** X4. A successful create of a person stores a row whose person_id is
    the one generate_person_id gave, which get then finds; and the
    identifier generated next is its successor: creating again gives the
    next number, never the same one. *)
Theorem people_create_consecutive data db row db' :
  PeopleRouter.create data db = (Ok row, db') ->
  generate_person_id db = Ok (People.person_id row) /\
  get_people db' (People.person_id row) = Some row /\
  person_number (People.person_id row) = max_person_number db + 1 /\
  max_person_number db' = person_number (People.person_id row) /\
  (forall data' row' db'',
     PeopleRouter.create data' db' = (Ok row', db'') ->
     person_number (People.person_id row') = person_number (People.person_id row) + 1 /\
     People.person_id row' <> People.person_id row).
Proof.
  intros H. apply people_create_ok in H. destruct H as (pid & Hgen & Hrow & Hdb).
  assert (Hid : People.person_id row = pid) by (rewrite Hrow; reflexivity).
  destruct (generate_person_id_fresh db pid Hgen) as [Hm Hfresh].
  destruct (generate_person_id_value db pid Hgen) as [Hlt Hpid].
  pose proof (max_person_number_range db) as Hr.
  destruct (person_id_well_formed (max_person_number db + 1)) as [_ Hn]; [lia|].
  rewrite <- Hpid in Hn.
  assert (Hmax : max_person_number db' = max_person_number db + 1).
  { rewrite Hdb. apply max_person_number_after; rewrite Hid; assumption. }
  rewrite Hid. split; [exact Hgen|]. split.
  { rewrite Hdb. unfold get_people in *. cbn [people set_people].
    apply find_app_last; [exact Hfresh | rewrite Hid; apply String.eqb_refl]. }
  split; [exact Hn|]. split; [lia|].
  intros data' row' db'' H'. apply people_create_ok in H'.
  destruct H' as (pid' & Hgen' & Hrow' & _).
  assert (Hid' : People.person_id row' = pid') by (rewrite Hrow'; reflexivity).
  destruct (generate_person_id_value db' pid' Hgen') as [Hlt' Hpid'].
  pose proof (max_person_number_range db') as Hr'.
  destruct (person_id_well_formed (max_person_number db' + 1)) as [_ Hn']; [lia|].
  rewrite <- Hpid' in Hn'. rewrite Hid'.
  split; [lia|]. intros E. rewrite E in Hn'. lia.
Qed.

Lemma people_create_consecutive_witness :
  exists row db',
    PeopleRouter.create nobody empty_session = (Ok row, db') /\
    get_people db' (People.person_id row) = Some row.
Proof.
  destruct (PeopleRouter.create nobody empty_session) as [[row|e] db'] eqn:E;
    [|vm_compute in E; discriminate E].
  exists row, db'. split; [reflexivity|].
  exact (proj1 (proj2 (people_create_consecutive _ _ _ _ E))).
Defined.

(** ** Handlers read, then write once *)

Lemma reads_only_run {A : Type} (f : Session -> result A) : reads_only (run f).
Proof. intros db r db' [= _ <-]. reflexivity. Qed.

Lemma reads_only_query {A : Type} (f : Session -> option A) : reads_only (query f).
Proof. intros db r db' [= _ <-]. reflexivity. Qed.

Lemma reads_only_raise {A : Type} (e : exn) : reads_only (@raise A e).
Proof. intros db r db' [= _ <-]. reflexivity. Qed.

Lemma reads_only_ret {A : Type} (a : A) : reads_only (ret a).
Proof. intros db r db' [= _ <-]. reflexivity. Qed.

Lemma reads_only_bind {A B : Type} (m : M A) (k : A -> M B) :
  reads_only m -> (forall a, reads_only (k a)) -> reads_only (bindM m k).
Proof.
  intros Hm Hk db r db'. unfold bindM.
  destruct (m db) as [[a|e] db1] eqn:E; apply Hm in E; subst db1.
  - apply Hk.
  - intros [= _ <-]. reflexivity.
Qed.

Lemma reads_only_fails_clean {A : Type} (m : M A) : reads_only m -> fails_clean m.
Proof. intros H db e db'. apply H. Qed.

Lemma reads_only_commits {A : Type} (step : Session -> Session -> Prop) (m : M A) :
  reads_only m -> (forall db, step db db) -> commits step m.
Proof. intros H Hrefl db a db' E. apply H in E. subst. apply Hrefl. Qed.

Lemma fails_clean_bind {A B : Type} (m : M A) (k : A -> M B) :
  reads_only m -> (forall a, fails_clean (k a)) -> fails_clean (bindM m k).
Proof.
  intros Hm Hk db e db'. unfold bindM.
  destruct (m db) as [[a|e1] db1] eqn:E; apply Hm in E; subst db1.
  - apply Hk.
  - intros [= _ <-]. reflexivity.
Qed.

Lemma fails_clean_add_flush {A : Type} (insert : Session -> result Session) (a : A) :
  fails_clean (bindM (add_flush insert) (fun _ => ret a)).
Proof.
  intros db e db'. unfold bindM, add_flush, ret.
  destruct (insert db); [discriminate|]. intros [= _ <-]. reflexivity.
Qed.

Lemma fails_clean_set_flush {A : Type} (f : Session -> Session) (a : A) :
  fails_clean (bindM (set_flush f) (fun _ => ret a)).
Proof. intros db e db'. unfold bindM, set_flush, ret. discriminate. Qed.

Lemma fails_clean_try_except {A : Type} (body : M A) (handler : exn -> exn) :
  fails_clean body -> fails_clean (try_except body handler).
Proof.
  intros H db e db'. unfold try_except.
  destruct (body db) as [[a|e1] db1] eqn:E; [discriminate|].
  apply H in E. subst db1. destruct e1; intros [= _ <-]; reflexivity.
Qed.

Lemma commits_bind {A B : Type} (step : Session -> Session -> Prop)
  (m : M A) (k : A -> M B) :
  reads_only m -> (forall a, commits step (k a)) -> commits step (bindM m k).
Proof.
  intros Hm Hk db b db'. unfold bindM.
  destruct (m db) as [[a|e1] db1] eqn:E; apply Hm in E; subst db1.
  - apply Hk.
  - discriminate.
Qed.

Lemma commits_raise {A : Type} (step : Session -> Session -> Prop) (e : exn) :
  commits step (@raise A e).
Proof. intros db a db'. discriminate. Qed.



Lemma commits_try_except {A : Type} (step : Session -> Session -> Prop)
  (body : M A) (handler : exn -> exn) :
  commits step body -> commits step (try_except body handler).
Proof.
  intros H db a db'. unfold try_except.
  destruct (body db) as [[a1|e1] db1] eqn:E.
  - intros [= _ <-]. now apply H in E.
  - destruct e1; discriminate.
Qed.

Ltac reads_only :=
  repeat first
    [ apply reads_only_run | apply reads_only_query
    | apply reads_only_raise | apply reads_only_ret
    | apply reads_only_bind; [|intros ?]
    | progress cbv zeta
    | match goal with
      | |- reads_only (match ?x with _ => _ end) => destruct x
      end ].

Ltac fails_clean :=
  repeat first
    [ apply fails_clean_try_except
    | apply fails_clean_add_flush
    | apply fails_clean_set_flush
    | apply fails_clean_bind; [solve [reads_only] | intros ?]
    | apply reads_only_fails_clean; solve [reads_only]
    | progress cbv zeta
    | match goal with
      | |- fails_clean (match ?x with _ => _ end) => destruct x
      end ].

Ltac commits :=
  repeat first
    [ apply commits_try_except
    | apply commits_raise
    | apply commits_bind; [solve [reads_only] | intros ?]
    | progress cbv zeta
    | match goal with
      | |- commits _ (match ?x with _ => _ end) => destruct x
      end ].






































Lemma eqb_string_iff (x y : string) : String.eqb x y = true <-> x = y.
Proof. apply String.eqb_eq. Qed.






Lemma Z_eqb_iff (x y : Z) : (x =? y) = true <-> x = y.
Proof. apply Z.eqb_eq. Qed.







(** ** Every route is atomic and keeps the constraints of the schema *)







(** ** Reading back what was written *)

Section Keyed.
Context {A K : Type} (eqb : K -> K -> bool) (key : A -> K).
Hypothesis eqb_iff : forall x y, eqb x y = true <-> x = y.

Lemma eqb_false_iff' (x y : K) : eqb x y = false <-> x <> y.
Proof.
  destruct (eqb x y) eqn:E.
  - apply eqb_iff in E. split; [discriminate | contradiction].
  - split; [|reflexivity]. intros _ H. apply eqb_iff in H. congruence.
Qed.



Lemma find_remove_same (k : K) (l : list A) :
  find (fun r => eqb (key r) k) (filter (fun r => negb (eqb (key r) k)) l) = None.
Proof.
  induction l as [|r l IH]; cbn [find filter]; [reflexivity|].
  destruct (eqb (key r) k) eqn:E; cbn [negb find]; [exact IH|].
  now rewrite E.
Qed.

Lemma find_remove_other (k k' : K) (l : list A) :
  k' <> k ->
  find (fun r => eqb (key r) k') (filter (fun r => negb (eqb (key r) k)) l) =
  find (fun r => eqb (key r) k') l.
Proof.
  intros Hne. induction l as [|r l IH]; cbn [find filter]; [reflexivity|].
  destruct (eqb (key r) k) eqn:E; cbn [negb find].
  - apply eqb_iff in E.
    assert (E' : eqb (key r) k' = false) by (apply eqb_false_iff'; congruence).
    now rewrite E'.
  - destruct (eqb (key r) k'); [reflexivity | exact IH].
Qed.


Lemma filter_absent (k : K) (l : list A) :
  find (fun r => eqb (key r) k) l = None ->
  filter (fun r => negb (eqb (key r) k)) l = l.
Proof.
  induction l as [|r l IH]; cbn [find filter]; [reflexivity|].
  destruct (eqb (key r) k); [discriminate|]. cbn [negb]. intros H. now rewrite IH.
Qed.

Lemma filter_app_last (k : K) (x : A) (l : list A) :
  key x = k ->
  find (fun r => eqb (key r) k) l = None ->
  filter (fun r => negb (eqb (key r) k)) (l ++ [x]) = l.
Proof.
  intros Hk Hnone. rewrite filter_app, (filter_absent k l Hnone). cbn [filter].
  assert (E : eqb (key x) k = true) by now apply eqb_iff.
  rewrite E. cbn [negb]. apply app_nil_r.
Qed.

End Keyed.

Lemma get_found {A : Type} (lookup : Session -> option A) (missing : exn) (db : Session) :
  (found <- query lookup ;;
   match found with
   | None => raise missing
   | Some row => ret row
   end)%M db =
  match lookup db with
  | Some row => (Ok row, db)
  | None => (Raise missing, db)
  end.
Proof. unfold bindM, query, raise, ret. now destruct (lookup db). Qed.



Lemma delete_ok {A K : Type} (lookup : Session -> option A) (missing : exn)
  (remove : Session -> Session) (key : K) (handler : exn -> exn)
  (db : Session) (message : K) (db' : Session) :
  try_except
    (found <- query lookup ;;
     match found with
     | None => raise missing
     | Some _ => set_flush remove ;;; ret key
     end)%M handler db = (Ok message, db') ->
  is_some (lookup db) = true /\ message = key /\ db' = remove db.
Proof.
  unfold try_except, bindM, query, raise, ret, set_flush.
  destruct (lookup db); [|destruct missing; discriminate].
  intros [= <- <-]. auto.
Qed.

(** X9. After a delete of driver_info, vehicle_violations,
    crash_circumstances or people has succeeded, the row existed before, a
    get of its key raises 404, and a get of any other key of the table
    finds what it found before. Deleting a person also deletes the
    driver_info of that person, and of nobody else. *)
Theorem delete_then_not_found :
  (forall person_id db message db',
     DriverInfoRouter_delete person_id db = (Ok message, db') ->
     is_some (get_driver_info db person_id) = true /\
     DriverInfoRouter_get person_id db' =
       (Raise (HTTPException 404 (NoEncontrado "driver_info" person_id)), db') /\
     (forall key, key <> person_id -> get_driver_info db' key = get_driver_info db key)) /\
  (forall vehicle_id db message db',
     VehicleViolationsRouter_delete vehicle_id db = (Ok message, db') ->
     is_some (get_vehicle_violations db vehicle_id) = true /\
     VehicleViolationsRouter_get vehicle_id db' =
       (Raise (HTTPException 404
                 (NoEncontrado "vehicle_violations" (Py.str_int vehicle_id))), db') /\
     (forall key, key <> vehicle_id ->
        get_vehicle_violations db' key = get_vehicle_violations db key)) /\
  (forall crash_record_id db message db',
     CrashCircumstancesRouter_delete crash_record_id db = (Ok message, db') ->
     is_some (get_crash_circumstances db crash_record_id) = true /\
     CrashCircumstancesRouter_get crash_record_id db' =
       (Raise (HTTPException 404
                 (NoEncontrado "crash_circumstances" crash_record_id)), db') /\
     (forall key, key <> crash_record_id ->
        get_crash_circumstances db' key = get_crash_circumstances db key)) /\
  (forall person_id db message db',
     PeopleRouter_delete person_id db = (Ok message, db') ->
     is_some (get_people db person_id) = true /\
     PeopleRouter_get person_id db' =
       (Raise (HTTPException 404 (NoEncontrado "people" person_id)), db') /\
     DriverInfoRouter_get person_id db' =
       (Raise (HTTPException 404 (NoEncontrado "driver_info" person_id)), db') /\
     (forall key, key <> person_id ->
        get_people db' key = get_people db key /\
        get_driver_info db' key = get_driver_info db key)).
Proof.
  split; [|split; [|split]]; intros key db message db' H;
    apply delete_ok in H; destruct H as (Hfound & _ & ->);
    (split; [exact Hfound|]).
  - unfold DriverInfoRouter_get. rewrite get_found.
    unfold get_driver_info, remove_driver_info. cbn [driver_info set_driver_info].
    rewrite find_remove_same. split; [reflexivity|]. intros k Hne.
    now apply (find_remove_other String.eqb DriverInfo.person_id eqb_string_iff).
  - unfold VehicleViolationsRouter_get. rewrite get_found.
    unfold get_vehicle_violations, remove_vehicle_violations.
    cbn [vehicle_violations set_vehicle_violations].
    rewrite find_remove_same. split; [reflexivity|]. intros k Hne.
    now apply (find_remove_other Z.eqb VehicleViolations.vehicle_id Z_eqb_iff).
  - unfold CrashCircumstancesRouter_get. rewrite get_found.
    unfold get_crash_circumstances, remove_crash_circumstances.
    cbn [crash_circumstances set_crash_circumstances].
    rewrite find_remove_same. split; [reflexivity|]. intros k Hne.
    now apply (find_remove_other String.eqb CrashCircumstances.crash_record_id
                 eqb_string_iff).
  - unfold PeopleRouter_get, DriverInfoRouter_get. rewrite !get_found.
    unfold get_people, get_driver_info, remove_people, remove_driver_info.
    cbn [people driver_info set_people set_driver_info].
    rewrite !find_remove_same. split; [reflexivity|]. split; [reflexivity|].
    intros k Hne. split.
    + now apply (find_remove_other String.eqb People.person_id eqb_string_iff).
    + now apply (find_remove_other String.eqb DriverInfo.person_id eqb_string_iff).
Qed.

Lemma delete_then_not_found_witness :
  PeopleRouter_get "Q0000002" (snd (PeopleRouter_delete "Q0000002"
                                      (people_db ["Q0000001"; "Q0000002"]))) =
  (Raise (HTTPException 404 (NoEncontrado "people" "Q0000002")),
   snd (PeopleRouter_delete "Q0000002" (people_db ["Q0000001"; "Q0000002"]))).
Proof.
  exact (proj1 (proj2 (proj2 (proj2 (proj2 delete_then_not_found))
                        "Q0000002" (people_db ["Q0000001"; "Q0000002"]) _ _ eq_refl))).
Defined.

(** X10. Person identifiers are reused: when the person a create has just
    stored is deleted, the people table is what it was before the create,
    and the next create gives its person the same person_id. *)
Theorem person_id_reused_after_delete data db row db1 message db2 data' row' db3 :
  PeopleRouter.create data db = (Ok row, db1) ->
  PeopleRouter_delete (People.person_id row) db1 = (Ok message, db2) ->
  PeopleRouter.create data' db2 = (Ok row', db3) ->
  people db2 = people db /\ People.person_id row' = People.person_id row.
Proof.
  intros Hc Hd Hc'.
  pose proof (people_create_generated _ _ _ _ Hc) as (Hgen & _).
  apply people_create_ok in Hc. destruct Hc as (pid & _ & Hrow & ->).
  apply delete_ok in Hd. destruct Hd as (_ & _ & ->).
  pose proof (generate_person_id_fresh _ _ Hgen) as [_ Hfresh].
  assert (Hpeople : people (remove_people (People.person_id row)
                      (set_people (people db ++ [row])%list db)) = people db).
  { unfold remove_people, remove_driver_info.
    cbn [people driver_info set_people set_driver_info].
    now apply (filter_app_last String.eqb People.person_id eqb_string_iff). }
  split; [exact Hpeople|].
  apply people_create_ok in Hc'. destruct Hc' as (pid' & Hgen' & Hrow' & _).
  rewrite Hrow'. cbn [People.person_id].
  assert (E : generate_person_id (remove_people (People.person_id row)
                (set_people (people db ++ [row])%list db)) = generate_person_id db).
  { unfold generate_person_id, next_person_number. now rewrite Hpeople. }
  rewrite E, Hgen in Hgen'. now injection Hgen' as <-.
Qed.

Lemma person_id_reused_after_delete_witness :
  people empty_session = people empty_session /\
  People.person_id (person "Q0000001") = People.person_id (person "Q0000001").
Proof.
  exact (person_id_reused_after_delete
           nobody empty_session (person "Q0000001") (people_db ["Q0000001"])
           "Q0000001" empty_session
           nobody (person "Q0000001") (people_db ["Q0000001"])
           eq_refl eq_refl eq_refl).
Defined.

(** ** Pages of a list *)








(** ** Identifiers across schemas *)

Lemma is_lower_hex_is_hex_char (c : ascii) : SHA512.is_lower_hex c = is_hex_char c.
Proof. destruct c as [[] [] [] [] [] [] [] []]; reflexivity. Qed.

Lemma lower_hex_len (s : string) :
  Py.string_forallb SHA512.is_lower_hex s = true ->
  Py.len s = Z.of_nat (String.length s) /\ Py.string_forallb is_hex_char s = true.
Proof.
  induction s as [|c s IH]; [split; reflexivity|].
  cbn [Py.string_forallb Py.len String.length]. intros H.
  apply andb_true_iff in H. destruct H as [Hc Hs].
  destruct (IH Hs) as [Hlen Hhex]. split.
  - rewrite Hlen.
    assert (E : ((128 <=? N_of_ascii c) && (N_of_ascii c <? 192))%N = false).
    { clear -Hc. destruct c as [[] [] [] [] [] [] [] []]; try reflexivity; discriminate. }
    rewrite E. lia.
  - rewrite <- is_lower_hex_is_hex_char, Hc. exact Hhex.
Qed.

(** X13. The crash_record_id that generate_crash_record_id computes, and
    so the key of every crash that create stores, passes the checks of the
    schema of crash_classification on that field: 128 characters, all of
    them lowercase hexadecimal digits. Whatever passes those checks has 128
    characters, each one of 0123456789abcdef. *)
Theorem crash_key_fits_classification_schema :
  (forall incident_date latitude longitude street_no street_name,
     classification_id_errors
       (generate_crash_record_id incident_date latitude longitude street_no street_name)
     = []) /\
  (forall now data db row db',
     CrashesRouter.create now data db = (Ok row, db') ->
     classification_id_errors (Crash.crash_record_id row) = []) /\
  (forall s,
     classification_id_errors s = [] ->
     Py.len s = 128 /\ Py.string_forallb is_hex_char s = true).
Proof.
  assert (Hgen : forall incident_date latitude longitude street_no street_name,
            classification_id_errors
              (generate_crash_record_id incident_date latitude longitude
                 street_no street_name) = []).
  { intros. unfold generate_crash_record_id, classification_id_errors.
    destruct (hexdigest_shape (SHA512.sha512 (Py.encode_utf8
               (strftime incident_date ++ Float64.format_6f latitude ++
                Float64.format_6f longitude ++ Py.str_int street_no ++ street_name))))
      as [Hlen Hhex].
    apply lower_hex_len in Hhex. destruct Hhex as [Hlen' Hhex].
    cbv zeta. rewrite Hlen', Hlen, Hhex. reflexivity. }
  split; [exact Hgen|]. split.
  - intros now data db row db' H. apply crash_create_ok in H.
    destruct H as (lat & lon & _ & _ & -> & _). apply Hgen.
  - intros s. unfold classification_id_errors, validator.
    destruct (Z.ltb_spec (Py.len s) 128); [discriminate|].
    destruct (Z.ltb_spec 128 (Py.len s)); [discriminate|].
    destruct (Py.string_forallb is_hex_char s); [|discriminate].
    intros _. split; [lia | reflexivity].
Qed.

Lemma crash_key_fits_classification_schema_witness :
  classification_id_errors (Crash.crash_record_id scenario_row) = [].
Proof.
  assert (E : CrashesRouter.create scenario_now scenario empty_session =
              (Ok scenario_row, scenario_db)) by (vm_compute; reflexivity).
  exact (proj1 (proj2 crash_key_fits_classification_schema) _ _ _ _ _ E).
Defined.






(** ** The status codes of failures *)

Lemma http_statuses_run {A : Type} (statuses : list Z) (f : Session -> result A) :
  (forall db status_code detail,
     f db = Raise (HTTPException status_code detail) -> In status_code statuses) ->
  http_statuses statuses (run f).
Proof. intros H db s d db' [= E _]. now apply H in E. Qed.

Lemma http_statuses_query {A : Type} (statuses : list Z) (f : Session -> option A) :
  http_statuses statuses (query f).
Proof. intros db s d db'. discriminate. Qed.

Lemma http_statuses_ret {A : Type} (statuses : list Z) (a : A) :
  http_statuses statuses (ret a).
Proof. intros db s d db'. discriminate. Qed.

Lemma http_statuses_raise {A : Type} (statuses : list Z) (status_code : Z)
  (detail : Detail) :
  In status_code statuses ->
  http_statuses statuses (@raise A (HTTPException status_code detail)).
Proof. intros H db s d db' [= <- _ _]. exact H. Qed.

Lemma http_statuses_bind {A B : Type} (statuses : list Z) (m : M A) (k : A -> M B) :
  http_statuses statuses m -> (forall a, http_statuses statuses (k a)) ->
  http_statuses statuses (bindM m k).
Proof.
  intros Hm Hk db s d db'. unfold bindM.
  destruct (m db) as [[a|e] db1] eqn:E.
  - apply Hk.
  - intros [= -> <-]. now apply Hm in E.
Qed.

Lemma http_statuses_add_flush (statuses : list Z) (insert : Session -> result Session) :
  (forall db e, insert db = Raise e -> e = IntegrityError) ->
  http_statuses statuses (add_flush insert).
Proof.
  intros H db s d db'. unfold add_flush.
  destruct (insert db) as [db1|e] eqn:E; [discriminate|].
  apply H in E. subst e. discriminate.
Qed.

Lemma http_statuses_set_flush (statuses : list Z) (f : Session -> Session) :
  http_statuses statuses (set_flush f).
Proof. intros db s d db'. discriminate. Qed.

Lemma raises_statuses_try_except {A : Type} (statuses : list Z) (body : M A)
  (handler : exn -> exn) :
  http_statuses statuses body ->
  (forall e, (forall s d, e <> HTTPException s d) ->
     exists s d, handler e = HTTPException s d /\ In s statuses) ->
  raises_statuses statuses (try_except body handler).
Proof.
  intros Hb Hh db e db'. unfold try_except.
  destruct (body db) as [[a|e1] db1] eqn:E; [discriminate|].
  destruct e1 as [s d| | | | | | |];
    try (intros [= <- _]; apply Hh; intros; discriminate).
  intros [= <- _]. exists s, d. split; [reflexivity|]. now apply Hb in E.
Qed.

Lemma add_crash_raises row db e : add_crash row db = Raise e -> e = IntegrityError.
Proof. unfold add_crash. destruct (is_some _); [now intros [= <-] | discriminate]. Qed.

Lemma add_crash_circumstances_raises row db e :
  add_crash_circumstances row db = Raise e -> e = IntegrityError.
Proof.
  unfold add_crash_circumstances. destruct (_ || _); [now intros [= <-] | discriminate].
Qed.

Lemma add_vehicle_violations_raises row db e :
  add_vehicle_violations row db = Raise e -> e = IntegrityError.
Proof.
  unfold add_vehicle_violations. destruct (_ || _); [now intros [= <-] | discriminate].
Qed.

Lemma add_people_raises row db e : add_people row db = Raise e -> e = IntegrityError.
Proof. unfold add_people. destruct (_ || _); [now intros [= <-] | discriminate]. Qed.

Lemma update_people_raises row db e : update_people row db = Raise e -> e = IntegrityError.
Proof. unfold update_people. destruct (_ || _); [now intros [= <-] | discriminate]. Qed.

Lemma add_driver_info_raises row db e :
  add_driver_info row db = Raise e -> e = IntegrityError.
Proof. unfold add_driver_info. destruct (_ || _); [now intros [= <-] | discriminate]. Qed.

Lemma truncate_raises value factor e :
  truncate value factor = Raise e -> forall s d, e <> HTTPException s d.
Proof.
  unfold truncate, Float64.mul_int, Float64.of_int, Float64.to_int, Float64.int_truediv, bind.
  intros H s d ->. revert H.
  destruct (binary_normalize _ _ factor 0 false); try discriminate;
    (destruct (Float64.mul value _); try discriminate;
     (destruct (factor =? 0); [discriminate|]);
     (match goal with |- context [if ?c then Ok _ else _] => destruct c end;
      [discriminate|]);
     destruct (SFdiv_core_binary _ _ _ _ _ _) as [[mz ez] lz];
     destruct (binary_round_aux _ _ _ _ _ _); discriminate).
Qed.

Lemma truncate_coordinates_raises latitude longitude decimals e :
  truncate_coordinates latitude longitude decimals = Raise e ->
  forall s d, e <> HTTPException s d.
Proof.
  unfold truncate_coordinates, bind. cbv zeta.
  destruct (truncate latitude _) as [lat|e1] eqn:E1.
  - destruct (truncate longitude _) as [lon|e2] eqn:E2; [discriminate|].
    intros [= <-]. exact (truncate_raises _ _ _ E2).
  - intros [= <-]. exact (truncate_raises _ _ _ E1).
Qed.

Lemma normalize_field_raises (v : option bool) e : normalize_field v <> Raise e.
Proof. rewrite normalize_field_id. discriminate. Qed.

Ltac in_statuses := cbn [In]; repeat first [left; reflexivity | right].

Ltac validator_statuses :=
  let H := fresh "H" in
  intros ? ? ? H;
  try (unfold when in H;
       match type of H with (if ?c then _ else _) = _ => destruct c; [|discriminate H] end);
  first
    [ apply validate_foreign_key_exists_raises in H;
      destruct H as [H|H]; [discriminate H | injection H as <- _; in_statuses]
    | first [ apply validate_age_raises in H
            | apply validate_non_negative_raises in H
            | apply validate_date_not_future_raises in H
            | apply validate_string_length_raises in H ];
      destruct H as [? H]; injection H as <- _; in_statuses
    | apply validate_coordinates_raises in H;
      destruct H as [H|[? H]]; [discriminate H | injection H as <- _; in_statuses]
    | apply generate_person_id_raises in H; discriminate H
    | eapply truncate_coordinates_raises in H; contradiction H; reflexivity
    | apply normalize_field_raises in H; destruct H ].

Ltac http_statuses :=
  repeat first
    [ apply http_statuses_query | apply http_statuses_ret
    | apply http_statuses_set_flush
    | apply http_statuses_raise; solve [in_statuses]
    | apply http_statuses_add_flush;
      solve [ apply add_crash_raises | apply add_crash_circumstances_raises
            | apply add_vehicle_violations_raises | apply add_people_raises
            | apply update_people_raises | apply add_driver_info_raises ]
    | apply http_statuses_run; solve [validator_statuses]
    | apply http_statuses_bind; [|intros ?]
    | progress cbv zeta
    | match goal with
      | |- http_statuses _ (match ?x with _ => _ end) => destruct x
      end ].

Ltac raises_statuses :=
  apply raises_statuses_try_except;
  [ http_statuses
  | let e := fresh "e" in let H := fresh "H" in
    intros e H; destruct e;
    try (exfalso; eapply H; reflexivity);
    eexists; eexists; (split; [reflexivity | in_statuses]) ].

















(** ** Schemas of vehicles, coordinates, updates of people *)

Lemma year_errors_accepts (now : datetime) (y : Z) :
  CreateVehicle.year_errors now (Some y) = [] <-> 1900 <= y <= year now + 1.
Proof.
  unfold CreateVehicle.year_errors, CreateVehicle.int_ge, validator.
  destruct (Z.ltb_spec y 1900); [split; [discriminate | lia]|].
  destruct (Z.ltb_spec (year now + 1) y); split; (discriminate || lia || reflexivity).
Qed.

(** X16. The body UpdateVehicle accepts never carries a vehicle year. A
    year the request sets is checked against 1900 and the year after the
    current one, and is then replaced by null, because the validator
    returns nothing; the field stays set, so an update that sends a year
    writes null. CreateVehicle, whose validator returns its argument,
    keeps the year. *)
Theorem update_vehicle_loses_the_year (now : datetime) :
  (forall d d',
     UpdateVehicle.validate now d = Ok d' ->
     set_value (UpdateVehicle.vehicle_year d') = None /\
     (UpdateVehicle.vehicle_year d' = None <-> UpdateVehicle.vehicle_year d = None) /\
     (forall y, UpdateVehicle.vehicle_year d = Some (Some y) ->
        1900 <= y <= year now + 1) /\
     UpdateVehicle.crash_record_id d' = UpdateVehicle.crash_record_id d /\
     UpdateVehicle.unit_no d' = UpdateVehicle.unit_no d /\
     UpdateVehicle.unit_type d' = UpdateVehicle.unit_type d /\
     UpdateVehicle.num_passengers d' = UpdateVehicle.num_passengers d /\
     UpdateVehicle.make d' = UpdateVehicle.make d /\
     UpdateVehicle.model d' = UpdateVehicle.model d /\
     UpdateVehicle.vehicle_type d' = UpdateVehicle.vehicle_type d) /\
  (forall d d',
     CreateVehicle.validate now d = Ok d' ->
     d' = d /\
     (forall y, CreateVehicle.vehicle_year d = Some y -> 1900 <= y <= year now + 1)).
Proof.
  split.
  - intros d d'. unfold UpdateVehicle.validate.
    match goal with |- checked _ ?errs = _ -> _ => remember errs as errors eqn:Herrors end.
    destruct errors; [|discriminate]. cbn [checked]. intros [= <-].
    cbn [UpdateVehicle.vehicle_year UpdateVehicle.crash_record_id UpdateVehicle.unit_no
         UpdateVehicle.unit_type UpdateVehicle.num_passengers UpdateVehicle.make
         UpdateVehicle.model UpdateVehicle.vehicle_type].
    repeat split; try (destruct (UpdateVehicle.vehicle_year d) as [[y|]|]; cbn;
                       (reflexivity || discriminate)).
    all: symmetry in Herrors.
    all: apply app_nil_both in Herrors; destruct Herrors as [_ Herrors].
    all: apply app_nil_both in Herrors; destruct Herrors as [_ Herrors].
    all: apply app_nil_both in Herrors; destruct Herrors as [_ Herrors].
    all: apply app_nil_both in Herrors; destruct Herrors as [Herrors _].
    all: rewrite H in Herrors; cbn [set_value] in Herrors.
    all: apply year_errors_accepts in Herrors; lia.
  - intros d d'. unfold CreateVehicle.validate.
    match goal with |- checked _ ?errs = _ -> _ => remember errs as errors eqn:Herrors end.
    destruct errors; [|discriminate]. cbn [checked]. intros [= <-].
    split; [reflexivity|]. intros y Hy. symmetry in Herrors.
    apply app_nil_both in Herrors; destruct Herrors as [_ Herrors].
    apply app_nil_both in Herrors; destruct Herrors as [_ Herrors].
    apply app_nil_both in Herrors; destruct Herrors as [_ Herrors].
    apply app_nil_both in Herrors; destruct Herrors as [Herrors _].
    rewrite Hy in Herrors. now apply year_errors_accepts in Herrors.
Qed.

Lemma update_vehicle_loses_the_year_witness :
  set_value (UpdateVehicle.vehicle_year
               (UpdateVehicle.Build None None None None (Some None) None None None)) = None.
Proof.
  exact (proj1 (proj1 (update_vehicle_loses_the_year scenario_now)
                  (UpdateVehicle.Build None None None None (Some (Some 2020)) None None None)
                  (UpdateVehicle.Build None None None None (Some None) None None None)
                  eq_refl)).
Defined.

Lemma latitude_between_finite (x : float) :
  float_between (-90) x 90 = true -> is_finite x = true.
Proof. destruct x as [s|[]| |s m e]; try reflexivity; vm_compute; discriminate. Qed.

Lemma longitude_between_finite (x : float) :
  float_between (-180) x 180 = true -> is_finite x = true.
Proof. destruct x as [s|[]| |s m e]; try reflexivity; vm_compute; discriminate. Qed.

(** X17. validate_coordinates accepts a pair exactly when the latitude
    is between -90 and 90 and the longitude between -180 and 180, bounds
    included; a NaN or an infinity is never accepted. So the coordinates of
    a body that create accepted are finite, and so are the truncated
    coordinates of the row it stores. *)
Theorem accepted_coordinates_are_finite :
  (forall lat lon,
     validate_coordinates (Some lat) (Some lon) = Ok tt <->
     float_between (-90) lat 90 = true /\ float_between (-180) lon 180 = true) /\
  (forall lat lon,
     validate_coordinates (Some lat) (Some lon) = Ok tt ->
     is_finite lat = true /\ is_finite lon = true) /\
  validate_coordinates (Some (Float64.const 90)) (Some (Float64.const (-180))) = Ok tt /\
  (forall now data db row db',
     CrashesRouter.create now data db = (Ok row, db') ->
     is_finite (CreateCrash.latitude data) = true /\
     is_finite (CreateCrash.longitude data) = true /\
     exists lat lon,
       Crash.latitude row = Some lat /\ Crash.longitude row = Some lon /\
       is_finite lat = true /\ is_finite lon = true).
Proof.
  assert (Hiff : forall lat lon,
            validate_coordinates (Some lat) (Some lon) = Ok tt <->
            float_between (-90) lat 90 = true /\ float_between (-180) lon 180 = true).
  { intros lat lon. unfold validate_coordinates.
    destruct (float_between (-90) lat 90); cbn [negb];
      [|split; [discriminate | intros [? _]; discriminate]].
    destruct (float_between (-180) lon 180); cbn [negb];
      [|split; [discriminate | intros [_ ?]; discriminate]].
    split; auto. }
  assert (Hfin : forall lat lon,
            validate_coordinates (Some lat) (Some lon) = Ok tt ->
            is_finite lat = true /\ is_finite lon = true).
  { intros lat lon H. apply Hiff in H. destruct H as [H1 H2].
    split; [now apply latitude_between_finite | now apply longitude_between_finite]. }
  split; [exact Hiff|]. split; [exact Hfin|]. split; [vm_compute; reflexivity|].
  intros now data db row db' H. apply crash_create_ok in H.
  destruct H as (lat & lon & Hlat & Hlon & -> & _ & _ & Hv & _).
  apply Hfin in Hv. destruct Hv as [H1 H2]. split; [exact H1|]. split; [exact H2|].
  exists lat, lon. cbn [Crash.latitude Crash.longitude].
  split; [reflexivity|]. split; [reflexivity|].
  split; eapply truncate_finite; eassumption.
Qed.

Lemma accepted_coordinates_are_finite_witness :
  is_finite (CreateCrash.latitude scenario) = true /\
  is_finite (CreateCrash.longitude scenario) = true.
Proof.
  assert (E : CrashesRouter.create scenario_now scenario empty_session =
              (Ok scenario_row, scenario_db)) by (vm_compute; reflexivity).
  destruct (proj2 (proj2 (proj2 accepted_coordinates_are_finite)) _ _ _ _ _ E)
    as (H1 & H2 & _).
  exact (conj H1 H2).
Defined.






(** ** Truncation and dates *)

Lemma binary_round_aux_opp (s : bool) (m e : Z) (l : location) :
  binary_round_aux Float64.prec Float64.emax (negb s) m e l =
  SFopp (binary_round_aux Float64.prec Float64.emax s m e l).
Proof.
  unfold binary_round_aux.
  destruct (shr_fexp _ _ m e l) as [mrs' e'].
  destruct (shr_fexp _ _ _ e' loc_Exact) as [mrs'' e''].
  destruct (shr_m mrs''); [reflexivity| |reflexivity].
  now destruct (e'' <=? _).
Qed.

Lemma mul_opp (x y : float) : Float64.mul (SFopp x) y = SFopp (Float64.mul x y).
Proof.
  unfold Float64.mul.
  destruct x as [sx|sx| |sx mx ex], y as [sy|sy| |sy my ey]; cbn [SFopp SFmul];
    try reflexivity; try (now destruct sx, sy).
  rewrite <- binary_round_aux_opp. now destruct sx, sy.
Qed.

Lemma to_int_opp (x : float) :
  Float64.to_int (SFopp x) =
  match Float64.to_int x with
  | Ok k => Ok (- k)
  | Raise e => Raise e
  end.
Proof.
  destruct x as [s|s| |s m e]; cbn [SFopp Float64.to_int]; try reflexivity.
  destruct s; cbn [negb]; f_equal; lia.
Qed.

Lemma int_truediv_opp (k factor : Z) :
  k <> 0 ->
  Float64.int_truediv (- k) factor =
  match Float64.int_truediv k factor with
  | Ok x => Ok (SFopp x)
  | Raise e => Raise e
  end.
Proof.
  intros Hk. unfold Float64.int_truediv.
  destruct (factor =? 0); [reflexivity|].
  destruct (Z.eqb_spec k 0) as [|_]; [contradiction|].
  destruct (Z.eqb_spec (- k) 0) as [|_]; [lia|].
  rewrite Z.abs_opp.
  destruct (SFdiv_core_binary _ _ _ _ _ _) as [[mz ez] lz].
  assert (Hs : xorb (- k <? 0) (factor <? 0) = negb (xorb (k <? 0) (factor <? 0))).
  { destruct (Z.ltb_spec (- k) 0), (Z.ltb_spec k 0), (factor <? 0);
      try reflexivity; lia. }
  rewrite Hs, binary_round_aux_opp.
  now destruct (binary_round_aux _ _ _ mz ez lz).
Qed.

(** X20. Truncation is symmetric about zero: when a value is cut to x,
    its opposite is cut to the opposite of x, with one exception, a value
    whose scaled integer part is 0, which is cut to +0.0 whatever its
    sign. *)
Theorem truncation_is_symmetric (value : float) (factor : Z) (x : float) :
  truncate value factor = Ok x ->
  truncate (SFopp value) factor = Ok (SFopp x) \/
  (truncate (SFopp value) factor = Ok x /\ x = S754_zero false).
Proof.
  unfold truncate, Float64.mul_int, bind.
  destruct (Float64.of_int factor) as [f|]; [|discriminate].
  rewrite mul_opp, to_int_opp.
  destruct (Float64.to_int (Float64.mul value f)) as [k|]; [|discriminate].
  destruct (Z.eq_dec k 0) as [->|Hk].
  - cbn [Z.opp]. intros H. right. split; [exact H|].
    unfold Float64.int_truediv in H. destruct (factor =? 0); [discriminate|].
    cbn in H. now injection H as <-.
  - rewrite (int_truediv_opp k factor Hk). intros ->. now left.
Qed.

Lemma truncation_is_symmetric_witness :
  truncate (SFopp latitude_below) 1000000 = Ok (SFopp latitude_above).
Proof.
  assert (E : truncate latitude_below 1000000 = Ok latitude_above)
    by (vm_compute; reflexivity).
  destruct (truncation_is_symmetric _ _ _ E) as [H|[_ H]];
    [exact H | discriminate H].
Defined.

Lemma lex_gtb_le_trans (a b c : list Z) :
  List.length a = List.length b -> List.length b = List.length c ->
  lex_gtb a b = false -> lex_gtb b c = false -> lex_gtb a c = false.
Proof.
  revert b c. induction a as [|x a IH]; intros [|y b] [|z c]; cbn [List.length lex_gtb];
    try discriminate; try reflexivity.
  intros Hab Hbc H1 H2.
  apply orb_false_elim in H1. destruct H1 as [Hyx H1].
  apply orb_false_elim in H2. destruct H2 as [Hzy H2].
  apply Z.ltb_ge in Hyx, Hzy.
  apply orb_false_intro; [apply Z.ltb_ge; lia|].
  destruct (Z.eqb_spec x z) as [->|]; [|reflexivity]. cbn [andb].
  assert (y = z) by lia. subst y. rewrite Z.eqb_refl in H1, H2. cbn [andb] in H1, H2.
  apply (IH b c); congruence.
Qed.

Lemma lex_gtb_irrefl (a : list Z) : lex_gtb a a = false.
Proof.
  induction a as [|x a IH]; [reflexivity|]. cbn [lex_gtb].
  now rewrite Z.ltb_irrefl, Z.eqb_refl, IH.
Qed.

(** X21. validate_date_not_future accepts the present instant itself, and
    a date it accepts at one reading of the clock it accepts at every
    later reading: a request that passed the check of its date cannot fail
    it when it is sent again. *)
Theorem accepted_date_stays_accepted (now later date : datetime) (field_name : string) :
  datetime_gtb now later = false ->
  validate_date_not_future now (Some date) field_name = Ok tt ->
  validate_date_not_future later (Some date) field_name = Ok tt /\
  validate_date_not_future now (Some now) field_name = Ok tt.
Proof.
  unfold validate_date_not_future, datetime_gtb. intros Hlater.
  destruct (lex_gtb (datetime_fields date) (datetime_fields now)) eqn:Hdate;
    [discriminate|]. intros _.
  rewrite (lex_gtb_le_trans (datetime_fields date) (datetime_fields now)
             (datetime_fields later) eq_refl eq_refl Hdate Hlater).
  now rewrite lex_gtb_irrefl.
Qed.

Lemma accepted_date_stays_accepted_witness :
  validate_date_not_future (Datetime 2027 1 1 0 0 0 0)
    (Some (CreateCrash.incident_date scenario)) "incident_date" = Ok tt.
Proof.
  exact (proj1 (accepted_date_stays_accepted scenario_now (Datetime 2027 1 1 0 0 0 0)
                  (CreateCrash.incident_date scenario) "incident_date"
                  eq_refl eq_refl)).
Defined.

(** ** Creating, creating again, deleting *)

(** X22. On the tables with one row for each parent (driver_info,
    vehicle_violations, crash_circumstances): once a create has succeeded,
    the same create again is answered 409 and writes nothing, and a delete
    of the key returns the store to exactly what it was before the
    create. *)
Theorem create_twice_conflicts_and_delete_undoes :
  (forall data db row db1,
     DriverInfoRouter.create data db = (Ok row, db1) ->
     DriverInfoRouter.create data db1 =
       (Raise (HTTPException 409
                 (YaExiste "driver_info" (CreateDriverInfo.person_id data))), db1) /\
     DriverInfoRouter_delete (CreateDriverInfo.person_id data) db1 =
       (Ok (CreateDriverInfo.person_id data), db)) /\
  (forall data db row db1,
     VehicleViolationsRouter.create data db = (Ok row, db1) ->
     VehicleViolationsRouter.create data db1 =
       (Raise (HTTPException 409
                 (YaExiste "vehicle_violations"
                    (Py.str_int (CreateVehicleViolation.vehicle_id data)))), db1) /\
     VehicleViolationsRouter_delete (CreateVehicleViolation.vehicle_id data) db1 =
       (Ok (CreateVehicleViolation.vehicle_id data), db)) /\
  (forall data db row db1,
     CrashCircumstancesRouter.create data db = (Ok row, db1) ->
     CrashCircumstancesRouter.create data db1 =
       (Raise (HTTPException 409
                 (YaExiste "crash_circumstances"
                    (CreateCrashCircumstances.crash_record_id data))), db1) /\
     CrashCircumstancesRouter_delete (CreateCrashCircumstances.crash_record_id data) db1 =
       (Ok (CreateCrashCircumstances.crash_record_id data), db)).
Proof.
  split; [|split]; intros data db row db1.
  - unfold DriverInfoRouter.create, DriverInfoRouter_delete.
    unfold try_except, bindM, run, query, raise, ret, add_flush, set_flush.
    destruct (validate_foreign_key_exists db _ _ _) as [[]|e1] eqn:Hfk;
      [|destruct e1; discriminate].
    destruct (get_driver_info db _) as [|] eqn:Hnone; [discriminate|]. cbn [is_some].
    destruct (DriverInfoRouter.bac_negative _); [discriminate|].
    destruct (add_driver_info _ db) as [db'|e3] eqn:E; [|destruct e3; discriminate].
    intros [= <- <-].
    unfold add_driver_info in E. destruct (_ || _); [discriminate|]. injection E as <-.
    change (validate_foreign_key_exists (set_driver_info _ db) "people" "person_id"
              (PyStr (CreateDriverInfo.person_id data)))
      with (validate_foreign_key_exists db "people" "person_id"
              (PyStr (CreateDriverInfo.person_id data))).
    rewrite Hfk. unfold get_driver_info in *. cbn [driver_info set_driver_info].
    rewrite (find_app_last _ _ _ Hnone) by (cbn; apply String.eqb_refl).
    cbn [is_some]. split; [reflexivity|]. f_equal.
    unfold remove_driver_info. cbn [driver_info set_driver_info].
    rewrite (filter_app_last String.eqb DriverInfo.person_id eqb_string_iff)
      by (reflexivity || exact Hnone).
    destruct db; reflexivity.
  - unfold VehicleViolationsRouter.create, VehicleViolationsRouter_delete.
    unfold try_except, bindM, run, query, raise, ret, add_flush, set_flush.
    destruct (validate_foreign_key_exists db _ _ _) as [[]|e1] eqn:Hfk;
      [|destruct e1; discriminate].
    destruct (get_vehicle_violations db _) as [|] eqn:Hnone; [discriminate|].
    cbn [is_some].
    destruct (when _ _) as [[]|e2]; [|destruct e2; discriminate].
    rewrite !normalize_field_id.
    destruct (add_vehicle_violations _ db) as [db'|e3] eqn:E; [|destruct e3; discriminate].
    intros [= <- <-].
    unfold add_vehicle_violations in E. destruct (_ || _); [discriminate|].
    injection E as <-.
    change (validate_foreign_key_exists (set_vehicle_violations _ db) "vehicle" "vehicle_id"
              (PyInt (CreateVehicleViolation.vehicle_id data)))
      with (validate_foreign_key_exists db "vehicle" "vehicle_id"
              (PyInt (CreateVehicleViolation.vehicle_id data))).
    rewrite Hfk. unfold get_vehicle_violations in *.
    cbn [vehicle_violations set_vehicle_violations].
    rewrite (find_app_last _ _ _ Hnone) by (cbn; apply Z.eqb_refl).
    cbn [is_some]. split; [reflexivity|]. f_equal.
    unfold remove_vehicle_violations. cbn [vehicle_violations set_vehicle_violations].
    rewrite (filter_app_last Z.eqb VehicleViolations.vehicle_id Z_eqb_iff)
      by (reflexivity || exact Hnone).
    destruct db; reflexivity.
  - unfold CrashCircumstancesRouter.create, CrashCircumstancesRouter_delete.
    unfold try_except, bindM, run, query, raise, ret, add_flush, set_flush.
    destruct (validate_foreign_key_exists db _ _ _) as [[]|e1] eqn:Hfk;
      [|destruct e1; discriminate].
    destruct (get_crash_circumstances db _) as [|] eqn:Hnone; [discriminate|].
    cbn [is_some].
    do 3 (match goal with
          | |- context [match when ?c ?v with _ => _ end] =>
              let e := fresh "e" in
              destruct (when c v) as [[]|e]; [|destruct e; discriminate]
          end).
    rewrite !normalize_field_id.
    destruct (add_crash_circumstances _ db) as [db'|e3] eqn:E;
      [|destruct e3; discriminate].
    intros [= <- <-].
    unfold add_crash_circumstances in E. destruct (_ || _); [discriminate|].
    injection E as <-.
    change (validate_foreign_key_exists (set_crash_circumstances _ db)
              "crashes" "crash_record_id"
              (PyStr (CreateCrashCircumstances.crash_record_id data)))
      with (validate_foreign_key_exists db "crashes" "crash_record_id"
              (PyStr (CreateCrashCircumstances.crash_record_id data))).
    rewrite Hfk. unfold get_crash_circumstances in *.
    cbn [crash_circumstances set_crash_circumstances].
    rewrite (find_app_last _ _ _ Hnone) by (cbn; apply String.eqb_refl).
    cbn [is_some]. split; [reflexivity|]. f_equal.
    unfold remove_crash_circumstances. cbn [crash_circumstances set_crash_circumstances].
    rewrite (filter_app_last String.eqb CrashCircumstances.crash_record_id eqb_string_iff)
      by (reflexivity || exact Hnone).
    destruct db; reflexivity.
Qed.

Lemma create_twice_conflicts_and_delete_undoes_witness :
  DriverInfoRouter_delete "Q0000001"
    (snd (DriverInfoRouter.create (driver "Q0000001") (people_db ["Q0000001"]))) =
  (Ok "Q0000001", people_db ["Q0000001"]).
Proof.
  exact (proj2 (proj1 create_twice_conflicts_and_delete_undoes
                  (driver "Q0000001") (people_db ["Q0000001"]) _ _ eq_refl)).
Defined.
